(** * pdf-rag-mcp-server: document lifecycle and protocol surface

    A shallow embedding of [upload_pdf.py] (the command-line ingestion
    tool, class [PDFUploader]) and of [backend/app/mcp_server.py] (the MCP
    resource and tool handlers), with the properties of the specification
    stated and proved over it.

    Conventions.
    - Python [str] values are byte strings ([string]); every literal the
      code compares against (the [pdf://] scheme, [.pdf], [y]) is ASCII, so
      prefix, suffix and equality tests agree with Python's on UTF-8 text.
    - Python exceptions are values of [Exn]; a computation that may raise
      returns a [Res]; code that also mutates state runs in the
      state-and-exception monad [SE].
    - The relational store is a table: the list of its rows in insertion
      order.  The file system is a finite map from paths to contents. *)

From stdpp Require Import gmap strings list fin_maps pretty.
From Stdlib Require Import ZArith Ascii String List Lia.
Import ListNotations.

Open Scope string_scope.
Open Scope Z_scope.

(** ** Python primitives *)

Module Py.

Definition NL : string := String "010"%char EmptyString.

(** [str.lower()] restricted to what the code observes of it: ASCII letters
    are folded, every other byte is kept.  No non-ASCII code point lowers
    to one of [.], [p], [d], [f], [y], so the two tests built on it
    ([endswith('.pdf')] and [== 'y']) are decided as in Python. *)
Definition lower_ascii (c : ascii) : ascii :=
  let n := nat_of_ascii c in
  if ((65 <=? n)%nat && (n <=? 90)%nat)%bool then ascii_of_nat (n + 32) else c.

Fixpoint lower (s : string) : string :=
  match s with
  | EmptyString => EmptyString
  | String c r => String (lower_ascii c) (lower r)
  end.

(** [s.startswith(p)] *)
Fixpoint startswith (s p : string) {struct p} : bool :=
  match p with
  | EmptyString => true
  | String c p' =>
      match s with
      | EmptyString => false
      | String d s' => (Ascii.eqb c d && startswith s' p')%bool
      end
  end.

(** [s.endswith(p)] *)
Definition endswith (s p : string) : bool :=
  startswith (String.rev s) (String.rev p).

(** [s[n:]] *)
Fixpoint slice_from (n : nat) (s : string) : string :=
  match n, s with
  | O, _ => s
  | S n', String _ r => slice_from n' r
  | S _, EmptyString => EmptyString
  end.

(** [sep.join(parts)] *)
Fixpoint join (sep : string) (parts : list string) : string :=
  match parts with
  | [] => EmptyString
  | [p] => p
  | p :: rest => p ++ sep ++ join sep rest
  end.

Fixpoint has_sep (p : string) : bool :=
  match p with
  | EmptyString => false
  | String c r => (Ascii.eqb c "/" || has_sep r)%bool
  end.

(** [os.path.basename] (POSIX): what follows the last [/]. *)
Fixpoint basename (p : string) : string :=
  match p with
  | EmptyString => EmptyString
  | String c r =>
      if has_sep r then basename r
      else if Ascii.eqb c "/" then r else p
  end.

(** [os.path.join(a, b)] (POSIX) *)
Definition path_join (a b : string) : string :=
  if startswith b "/" then b
  else if (String.eqb a EmptyString || endswith a "/")%bool then a ++ b
  else a ++ "/" ++ b.

(** [str(n)] for an [int] *)
Definition str_int (n : Z) : string := pretty n.

Fixpoint commas_rev (k : nat) (digits : list ascii) : list ascii :=
  match digits with
  | [] => []
  | c :: rest =>
      match k with
      | 3%nat => ","%char :: c :: commas_rev 1 rest
      | _ => c :: commas_rev (S k) rest
      end
  end.

(** [f"{n:,}"] for a non-negative [int]: digits grouped by three from the
    right. *)
Definition format_thousands (n : Z) : string :=
  string_of_list_ascii
    (List.rev (commas_rev 0 (List.rev (list_ascii_of_string (str_int n))))).

(** A Python value as the handlers observe it.  Floats, lists and dicts
    are carried by the two things the code asks of them: their truth
    value and their [str()]. *)
Inductive pyval : Type :=
  | VNone
  | VBool (b : bool)
  | VInt (n : Z)
  | VStr (s : string)
  | VOther (truth : bool) (repr : string).

(** [bool(v)] *)
Definition truthy (v : pyval) : bool :=
  match v with
  | VNone => false
  | VBool b => b
  | VInt n => negb (n =? 0)
  | VStr s => negb (String.eqb s EmptyString)
  | VOther t _ => t
  end.

(** [str(v)], as an f-string interpolates it *)
Definition str (v : pyval) : string :=
  match v with
  | VNone => "None"
  | VBool true => "True"
  | VBool false => "False"
  | VInt n => str_int n
  | VStr s => s
  | VOther _ r => r
  end.

(** [str(x)] for an integer column that may hold [None] *)
Definition str_opt_int (x : option Z) : string :=
  match x with
  | Some n => str_int n
  | None => "None"
  end.

(** An exception instance: its class and its [str(e)].  Only subclasses
    of [Exception] are represented. *)
Record Exn : Type := mkExn { exn_class : string; exn_str : string }.

Definition ValueError (msg : string) : Exn := mkExn "ValueError" msg.
Definition KeyError (key : string) : Exn := mkExn "KeyError" ("'" ++ key ++ "'").
Definition TypeError (msg : string) : Exn := mkExn "TypeError" msg.

Inductive Res (A : Type) : Type :=
  | Ok (a : A)
  | Raise (e : Exn).
Arguments Ok {A} a.
Arguments Raise {A} e.

(** [l.append(x)] *)
Definition list_append {A} (l : list A) (x : A) : list A := app l [x].

(** [d.get(k, default)] *)
Definition dict_get (d : gmap string pyval) (k : string) (default : pyval) : pyval :=
  match d !! k with
  | Some v => v
  | None => default
  end.

(** [d[k]] *)
Definition dict_index (d : gmap string pyval) (k : string) : Res pyval :=
  match d !! k with
  | Some v => Ok v
  | None => Raise (KeyError k)
  end.

End Py.
Export Py.

(** ** State and exceptions *)

Module SEMonad.
Section Defs.
Context {St : Type}.

Definition SE (A : Type) : Type := St -> Res A * St.

Definition ret {A} (a : A) : SE A := fun s => (Ok a, s).

Definition bind {A B} (c : SE A) (k : A -> SE B) : SE B :=
  fun s =>
    match c s with
    | (Ok a, s') => k a s'
    | (Raise e, s') => (Raise e, s')
    end.

Definition raise {A} (e : Exn) : SE A := fun s => (Raise e, s).

Definition lift {A} (r : Res A) : SE A := fun s => (r, s).

(** [try: body  except Exception as e: handler(e)] : the handler runs in
    the state the body reached. *)
Definition try_except {A} (body : SE A) (handler : Exn -> SE A) : SE A :=
  fun s =>
    match body s with
    | (Ok a, s') => (Ok a, s')
    | (Raise e, s') => handler e s'
    end.

Definition gets {A} (f : St -> A) : SE A := fun s => (Ok (f s), s).

Definition modify (f : St -> St) : SE unit := fun s => (Ok tt, f s).
End Defs.
End SEMonad.
Export SEMonad.

Declare Scope se_scope.
Delimit Scope se_scope with se.
Notation "x <- c ;; k" := (bind c (fun x => k))
  (at level 100, c at next level, k at level 200, right associativity) : se_scope.
Notation "c ;; k" := (bind c (fun _ => k))
  (at level 100, k at level 200, right associativity) : se_scope.
Open Scope se_scope.

(** ** Data model *)

(** Modelled from the spec: the declaration of the [PDFDocument] table
    ([backend/app/database.py]) is not among the sources.  The columns are
    the ones the handlers and the uploader read and write; page and chunk
    counts are unset ([None]) until the processing engine fills them in;
    the upload timestamp is carried by its [str()]. *)
Module PDFDocument.
Record t : Type := mk {
  id : Z;
  filename : string;
  file_path : string;
  file_size : Z;
  uploaded_at : string;
  page_count : option Z;
  chunks_count : option Z;
  processing : bool;
  processed : bool
}.
End PDFDocument.

(** The table, in insertion order.  [query(...).all()] walks it and
    [query(...).first()] takes its first matching row. *)
Definition Table : Type := list PDFDocument.t.

(** [PDFDocument.filename == v] for a bound value [v]: only a text value
    names a document. *)
Definition filename_is (v : pyval) (d : PDFDocument.t) : bool :=
  match v with
  | VStr s => String.eqb (PDFDocument.filename d) s
  | _ => false
  end.

(** ** The MCP server ([backend/app/mcp_server.py]) *)

Module McpServer.

(** The protocol library's URL object ([pydantic]'s [AnyUrl]), carried by
    its text.  It is not a [str]: it has none of the methods of [str] and
    cannot be sliced. *)
Record AnyUrl : Type := mkAnyUrl { url_text : string }.

Record Resource : Type := mkResource {
  uri : AnyUrl;
  name : string;
  description : string;
  mimeType : string
}.

Record TextContent : Type := mkTextContent {
  type : string;
  text : string
}.

(** What [handle_read_resource] is called with.  Its parameter is
    annotated [str]; the dispatch of the protocol library hands it the
    [AnyUrl] of the request. *)
Inductive UriArgument : Type :=
  | GivenStr (s : string)
  | GivenUrl (u : AnyUrl).

(** [obj.attr] on an object of a class without that attribute *)
Definition AttributeError (class attr : string) : Exn :=
  mkExn "AttributeError"
    ("'" ++ class ++ "' object has no attribute '" ++ attr ++ "'").

Section Resources.
(** The validation the library runs on the [uri] field when a [Resource]
    is built: it returns the URL, with its text possibly rewritten, or
    raises. *)
Variable validate_url : string -> Res AnyUrl.

(** [Resource(uri=..., name=..., description=..., mimeType=...)] *)
Definition new_Resource (uri name description mimeType : string) : Res Resource :=
  match validate_url uri with
  | Raise e => Raise e
  | Ok u =>
      Ok {| uri := u; name := name; description := description;
            mimeType := mimeType |}
  end.

(** The loop [for doc in documents: resources.append(Resource(...))]: an
    exception raised while a resource is built ends the call. *)
Fixpoint append_resources (documents : list PDFDocument.t)
    (resources : list Resource) : Res (list Resource) :=
  match documents with
  | [] => Ok resources
  | doc :: rest =>
      match new_Resource ("pdf://" ++ PDFDocument.filename doc)
              (PDFDocument.filename doc)
              ("PDF document: " ++ PDFDocument.filename doc)
              "application/pdf" with
      | Raise e => Raise e
      | Ok resource => append_resources rest (list_append resources resource)
      end
  end.

(** [handle_list_resources]: one resource per row with [processed == True],
    appended in table order. *)
Definition handle_list_resources (db : Table) : Res (list Resource) :=
  let documents := List.filter PDFDocument.processed db in
  append_resources documents [].
End Resources.

(** [handle_read_resource]: [uri.startswith] exists on a [str] only; on a
    [str], both failures are a [ValueError], told apart by their
    message. *)
Definition handle_read_resource (db : Table) (uri : UriArgument) : Res string :=
  match uri with
  | GivenUrl _ => Raise (AttributeError "AnyUrl" "startswith")
  | GivenStr uri =>
      if negb (startswith uri "pdf://") then
        Raise (ValueError ("Unsupported URI scheme: " ++ uri))
      else
        let filename := slice_from 6 uri in
        let document :=
          List.find
            (fun d => (String.eqb (PDFDocument.filename d) filename
                       && PDFDocument.processed d)%bool) db in
        match document with
        | None => Raise (ValueError ("Document not found: " ++ filename))
        | Some document =>
            let content_parts :=
              [ "Document: " ++ PDFDocument.filename document;
                "Pages: " ++ str_opt_int (PDFDocument.page_count document);
                "Status: Processed";
                "Upload Date: " ++ PDFDocument.uploaded_at document;
                "File Size: " ++ str_int (PDFDocument.file_size document) ++ " bytes" ] in
            Ok (join NL content_parts)
        end
  end.

(** ["✅" if doc.processed else "⏳" if doc.processing else "❌"] *)
Definition status_emoji (doc : PDFDocument.t) : string :=
  if PDFDocument.processed doc then "✅"
  else if PDFDocument.processing doc then "⏳" else "❌".

(** ["completed" if doc.processed else "processing" if doc.processing else "failed"] *)
Definition status_text (doc : PDFDocument.t) : string :=
  if PDFDocument.processed doc then "completed"
  else if PDFDocument.processing doc then "processing" else "failed".

(** The block [list_documents] appends for one row. *)
Definition list_entry (doc : PDFDocument.t) : string :=
  status_emoji doc ++ " " ++ PDFDocument.filename doc ++ NL ++
  "   Status: " ++ status_text doc ++ NL ++
  "   Upload Date: " ++ PDFDocument.uploaded_at doc ++ NL ++
  "   File Size: " ++ str_int (PDFDocument.file_size doc) ++ " bytes" ++ NL ++ NL.

(** [chunk_count > 0]: comparing [None] with an [int] raises. *)
Definition gt_zero (chunk_count : option Z) : Res bool :=
  match chunk_count with
  | Some n => Ok (0 <? n)
  | None =>
      Raise (TypeError
        "'>' not supported between instances of 'NoneType' and 'int'")
  end.

Definition ready_statement (chunk_count : option Z) : string :=
  NL ++ "Document is ready for searching and contains " ++
  str_opt_int chunk_count ++ " searchable chunks.".

Definition processing_statement : string :=
  NL ++ "Document is currently being processed.".

Definition failed_statement : string :=
  NL ++ "Document processing may have failed or is incomplete.".

(** The search engine is an external collaborator.  The state of the
    server, as far as the handlers are concerned, is the log of the calls
    made to it, each with its query and limit. *)
Definition SearchLog : Type := list (pyval * pyval).

Definition SearchResult : Type := gmap string pyval.

Section Handlers.
(** [vector_store.search(query, k=limit)]: returns passages or raises. *)
Variable vector_store_search : pyval -> pyval -> Res (list SearchResult).

Definition search (query limit : pyval) : @SE SearchLog (list SearchResult) :=
  fun calls => (vector_store_search query limit, list_append calls (query, limit)).

(** The loop [for i, result in enumerate(results, 1)]: [result['content']]
    raises [KeyError] on a passage without that key. *)
Fixpoint format_results (i : Z) (results : list SearchResult)
    (response_parts : list string) : Res (list string) :=
  match results with
  | [] => Ok response_parts
  | result :: rest =>
      let distance := dict_get result "distance" (VStr "N/A") in
      match dict_index result "content" with
      | Raise e => Raise e
      | Ok content =>
          format_results (i + 1) rest
            (list_append response_parts
               (NL ++ "--- Result " ++ str_int i ++ " ---" ++ NL ++
                "Relevance Score: " ++ str distance ++ NL ++
                "Content:" ++ NL ++ str content ++ NL))
      end
  end.

Definition text_content (s : string) : list TextContent :=
  [ {| type := "text"; text := s |} ].

Definition handle_call_tool (db : Table) (name : string)
    (arguments : gmap string pyval) : @SE SearchLog (list TextContent) :=
  if String.eqb name "search_documents" then
    let query := dict_get arguments "query" (VStr EmptyString) in
    let limit := dict_get arguments "limit" (VInt 5) in
    if negb (truthy query) then
      ret (text_content "Error: Query is required")
    else
      try_except
        (results <- search query limit ;;
         match results with
         | [] => ret (text_content "No relevant documents found for your query.")
         | _ =>
             let response_parts :=
               [ "Found " ++ str_int (Z.of_nat (length results)) ++
                 " relevant results for query: '" ++ str query ++ "'" ++ NL ] in
             response_parts <- lift (format_results 1 results response_parts) ;;
             ret (text_content (join EmptyString response_parts))
         end)
        (fun e => ret (text_content ("Error performing search: " ++ exn_str e)))
  else if String.eqb name "list_documents" then
    try_except
      (let documents := db in
       match documents with
       | [] => ret (text_content "No documents found in the knowledge base.")
       | _ =>
           let response_parts :=
             fold_left (fun parts doc => list_append parts (list_entry doc)) documents
               [ "Available documents in the knowledge base:" ++ NL ++ NL ] in
           ret (text_content (join EmptyString response_parts))
       end)
      (fun e => ret (text_content ("Error listing documents: " ++ exn_str e)))
  else if String.eqb name "get_document_info" then
    let filename := dict_get arguments "filename" (VStr EmptyString) in
    if negb (truthy filename) then
      ret (text_content "Error: Filename is required")
    else
      try_except
        (let document := List.find (filename_is filename) db in
         match document with
         | None =>
             ret (text_content ("Document '" ++ str filename ++ "' not found."))
         | Some document =>
             let chunk_count := PDFDocument.chunks_count document in
             let response :=
               "Document Information: " ++ PDFDocument.filename document ++ NL ++ NL ++
               "Status: " ++ status_text document ++ NL ++
               "Upload Date: " ++ PDFDocument.uploaded_at document ++ NL ++
               "File Size: " ++ str_int (PDFDocument.file_size document) ++ " bytes" ++ NL ++
               "Number of Chunks: " ++ str_opt_int chunk_count ++ NL ++
               "Page Count: " ++ str_opt_int (PDFDocument.page_count document) ++ NL ++
               "File Path: " ++ PDFDocument.file_path document ++ NL in
             ready <- lift (if PDFDocument.processed document
                            then gt_zero chunk_count else Ok false) ;;
             let response :=
               if ready then response ++ ready_statement chunk_count
               else if PDFDocument.processing document
                    then response ++ processing_statement
                    else response ++ failed_statement in
             ret (text_content response)
         end)
        (fun e => ret (text_content ("Error getting document info: " ++ exn_str e)))
  else
    ret (text_content ("Unknown tool: " ++ name)).
End Handlers.

End McpServer.

(** ** The command-line uploader ([upload_pdf.py]) *)

Module Uploader.

(** What an upload reads and writes: the table as the session sees it, the
    file system, the lines printed so far, and the snapshots of the table
    taken at each [db.commit()], oldest first: the states another process
    sharing the store can observe. *)
Record World : Type := mkWorld {
  db : Table;
  fs : gmap string string;
  out : list string;
  commits : list Table
}.

Definition print (line : string) : @SE World unit :=
  modify (fun w => {| db := db w; fs := fs w;
                      out := list_append (out w) line; commits := commits w |}).

(** [repr(s)] of a path without quotes or escapes in it *)
Definition repr_str (s : string) : string := "'" ++ s ++ "'".

Definition FileNotFoundError (path : string) : Exn :=
  mkExn "FileNotFoundError"
    ("[Errno 2] No such file or directory: " ++ repr_str path).

Definition SameFileError (src dst : string) : Exn :=
  mkExn "SameFileError"
    (repr_str src ++ " and " ++ repr_str dst ++ " are the same file").

(** [os.path.exists(path)] *)
Definition os_path_exists (path : string) : @SE World bool :=
  gets (fun w => bool_decide (is_Some (fs w !! path))).

(** [os.path.getsize(path)]: the length of the content in bytes *)
Definition os_path_getsize (path : string) : @SE World Z :=
  fun w =>
    match fs w !! path with
    | Some content => (Ok (Z.of_nat (String.length content)), w)
    | None => (Raise (FileNotFoundError path), w)
    end.

(** [shutil.copy2(src, dst)]: refuses to copy a file onto itself, and
    otherwise overwrites whatever [dst] held. *)
Definition shutil_copy2 (src dst : string) : @SE World unit :=
  fun w =>
    if String.eqb src dst then (Raise (SameFileError src dst), w)
    else
      match fs w !! src with
      | None => (Raise (FileNotFoundError src), w)
      | Some content =>
          (Ok tt, {| db := db w; fs := <[dst := content]> (fs w);
                     out := out w; commits := commits w |})
      end.

(** [db.query(PDFDocument).filter(PDFDocument.filename == filename).first()] *)
Definition query_first_by_filename (filename : string)
    : @SE World (option PDFDocument.t) :=
  gets (fun w =>
          List.find (fun d => String.eqb (PDFDocument.filename d) filename) (db w)).

(** [db.delete(doc)]: the row with the primary key of [doc] goes. *)
Definition db_delete (doc : PDFDocument.t) : @SE World unit :=
  modify (fun w =>
            {| db := List.filter
                       (fun d => negb (PDFDocument.id d =? PDFDocument.id doc)) (db w);
               fs := fs w; out := out w; commits := commits w |}).

(** Modelled from the spec: the id is assigned by the store
    (server-assigned integer id); here, one more than the largest in
    use. *)
Definition next_id (t : Table) : Z :=
  1 + fold_right Z.max 0 (List.map PDFDocument.id t).

(** [db.add(PDFDocument(filename=..., file_path=..., file_size=...,
    processing=..., processed=...))] followed by the read-back of
    [db.refresh]: the other columns take their defaults. *)
Definition db_add (now filename file_path : string) (file_size : Z)
    (processing processed : bool) : @SE World PDFDocument.t :=
  fun w =>
    let row :=
      {| PDFDocument.id := next_id (db w);
         PDFDocument.filename := filename;
         PDFDocument.file_path := file_path;
         PDFDocument.file_size := file_size;
         PDFDocument.uploaded_at := now;
         PDFDocument.page_count := None;
         PDFDocument.chunks_count := None;
         PDFDocument.processing := processing;
         PDFDocument.processed := processed |} in
    (Ok row, {| db := list_append (db w) row; fs := fs w;
                out := out w; commits := commits w |}).

(** [db.commit()] *)
Definition db_commit : @SE World unit :=
  modify (fun w => {| db := db w; fs := fs w; out := out w;
                      commits := list_append (commits w) (db w) |}).

Section PDFUploader.
(** [self.uploads_dir] *)
Variable uploads_dir : string.
(** The clock behind the default of [uploaded_at]. *)
Variable now : string.
(** [self.pdf_processor.process_pdf(pdf_id, pdf_path, filename)]: the
    external processing engine.  It returns or raises, and does what it
    likes to the store on the way. *)
Variable process_pdf : Z -> string -> string -> @SE World unit.

(** [input(prompt)]: the prompt is written out and the answer read. *)
Definition input (response prompt : string) : @SE World string :=
  print prompt ;; ret response.

Definition _process_pdf_async (pdf_id : Z) (pdf_path filename : string)
    : @SE World bool :=
  try_except
    (process_pdf pdf_id pdf_path filename ;;
     print "✨ PDF processing completed successfully!" ;;
     ret true)
    (fun e =>
       print ("❌ Error during processing: " ++ exn_str e) ;;
       ret false).

(** [upload_and_process_pdf(pdf_path)], with [response] what the user
    types if asked.  A [return False] out of the conflict block is the
    [false] of [proceed]. *)
Definition upload_and_process_pdf (pdf_path response : string)
    : @SE World bool :=
  try_except
    (exists_ <- os_path_exists pdf_path ;;
     if negb exists_ then
       print ("❌ Error: File not found: " ++ pdf_path) ;;
       ret false
     else if negb (endswith (lower pdf_path) ".pdf") then
       print ("❌ Error: File must be a PDF: " ++ pdf_path) ;;
       ret false
     else
       file_size <- os_path_getsize pdf_path ;;
       let filename := basename pdf_path in
       print ("📁 Processing PDF: " ++ filename) ;;
       print ("📊 File size: " ++ format_thousands file_size ++ " bytes") ;;
       existing_doc <- query_first_by_filename filename ;;
       proceed <-
         match existing_doc with
         | Some existing_doc =>
             print ("⚠️  Warning: Document '" ++ filename ++
                    "' already exists in database") ;;
             response <- input response "Do you want to reprocess it? (y/N): " ;;
             if negb (String.eqb (lower response) "y") then
               print "❌ Upload cancelled" ;;
               ret false
             else
               db_delete existing_doc ;;
               db_commit ;;
               print "🗑️  Deleted existing document record" ;;
               ret true
         | None => ret true
         end ;;
       if negb proceed then ret false
       else
         let dest_path := path_join uploads_dir filename in
         shutil_copy2 pdf_path dest_path ;;
         print ("📋 Copied file to: " ++ dest_path) ;;
         pdf_document <- db_add now filename dest_path file_size true false ;;
         db_commit ;;
         print ("💾 Created database record with ID: " ++
                str_int (PDFDocument.id pdf_document)) ;;
         print "🔄 Starting PDF processing..." ;;
         success <- _process_pdf_async (PDFDocument.id pdf_document)
                      dest_path filename ;;
         if success then
           print "✅ PDF processing completed successfully!" ;;
           print ("📚 Document '" ++ filename ++ "' is now available for searching") ;;
           ret true
         else
           print "❌ PDF processing failed!" ;;
           ret false)
    (fun e =>
       print ("❌ Error during upload: " ++ exn_str e) ;;
       ret false).
End PDFUploader.

End Uploader.

(** ** World transformers used to state what a run leaves behind *)

Module Trace.
Import Uploader.

(** The world after one more printed line. *)
Definition say (line : string) (w : World) : World :=
  {| db := db w; fs := fs w; out := list_append (out w) line; commits := commits w |}.

(** The world after [db.delete(doc); db.commit()]. *)
Definition after_delete (doc : PDFDocument.t) (w : World) : World :=
  let t := List.filter (fun d => negb (PDFDocument.id d =? PDFDocument.id doc)) (db w) in
  {| db := t; fs := fs w; out := out w; commits := list_append (commits w) t |}.

(** The row an upload creates. *)
Definition new_row (now filename dest_path : string) (file_size : Z) (t : Table)
    : PDFDocument.t :=
  PDFDocument.mk (next_id t) filename dest_path file_size now None None true false.

(** The world after the copy into managed storage. *)
Definition after_copy (content dest_path : string) (w : World) : World :=
  {| db := db w; fs := <[dest_path := content]> (fs w);
     out := out w; commits := commits w |}.

(** The world after [db.add(pdf_document); db.commit()]. *)
Definition after_create (row : PDFDocument.t) (w : World) : World :=
  let t := list_append (db w) row in
  {| db := t; fs := fs w; out := out w; commits := list_append (commits w) t |}.

(** The world after the first two progress lines. *)
Definition announced (pdf_path content : string) (w : World) : World :=
  say ("📊 File size: " ++
       format_thousands (Z.of_nat (String.length content)) ++ " bytes")
    (say ("📁 Processing PDF: " ++ basename pdf_path) w).

(** The world after the conflict block let the upload through: untouched
    when there was no row of that name, and with the old row deleted when
    the user confirmed. *)
Definition resolved (pdf_path content : string)
    (existing_doc : option PDFDocument.t) (w : World) : World :=
  match existing_doc with
  | None => announced pdf_path content w
  | Some doc =>
      say "🗑️  Deleted existing document record"
        (after_delete doc
           (say "Do you want to reprocess it? (y/N): "
              (say ("⚠️  Warning: Document '" ++ basename pdf_path ++
                    "' already exists in database")
                 (announced pdf_path content w))))
  end.

(** The world in which the processing engine is invoked. *)
Definition staged (uploads_dir now pdf_path content : string)
    (existing_doc : option PDFDocument.t) (w : World) : World :=
  let filename := basename pdf_path in
  let dest_path := path_join uploads_dir filename in
  let w2 := after_copy content dest_path (resolved pdf_path content existing_doc w) in
  let row := new_row now filename dest_path (Z.of_nat (String.length content)) (db w2) in
  say "🔄 Starting PDF processing..."
    (say ("💾 Created database record with ID: " ++ str_int (PDFDocument.id row))
       (after_create row (say ("📋 Copied file to: " ++ dest_path) w2))).

(** What the uploader makes of the engine's outcome. *)
Definition conclude (filename : string) (r : Res unit * World) : Res bool * World :=
  match r with
  | (Ok _, w) =>
      (Ok true,
       say ("📚 Document '" ++ filename ++ "' is now available for searching")
         (say "✅ PDF processing completed successfully!"
            (say "✨ PDF processing completed successfully!" w)))
  | (Raise e, w) =>
      (Ok false,
       say "❌ PDF processing failed!"
         (say ("❌ Error during processing: " ++ exn_str e) w))
  end.

(** Whether the user's answer confirms the replacement. *)
Definition confirms (response : string) : bool := String.eqb (lower response) "y".

(** The conflict block lets the upload through. *)
Definition goes_ahead (existing_doc : option PDFDocument.t) (response : string) : bool :=
  match existing_doc with
  | None => true
  | Some _ => confirms response
  end.

End Trace.

(** ** The vocabulary of the specification *)

Module Spec.
Import McpServer.

(** The status the specification derives from the two booleans. *)
Inductive Status : Type := Completed | InProgress | Failed.

Definition derived_status (d : PDFDocument.t) : Status :=
  if PDFDocument.processed d then Completed
  else if PDFDocument.processing d then InProgress
  else Failed.

Definition status_word (st : Status) : string :=
  match st with
  | Completed => "completed"
  | InProgress => "processing"
  | Failed => "failed"
  end.

Definition status_mark (st : Status) : string :=
  match st with
  | Completed => "✅"
  | InProgress => "⏳"
  | Failed => "❌"
  end.







(** One entry of the listing, with the status of the specification. *)
Definition entry (d : PDFDocument.t) : string :=
  status_mark (derived_status d) ++ " " ++ PDFDocument.filename d ++ NL ++
  "   Status: " ++ status_word (derived_status d) ++ NL ++
  "   Upload Date: " ++ PDFDocument.uploaded_at d ++ NL ++
  "   File Size: " ++ str_int (PDFDocument.file_size d) ++ " bytes" ++ NL ++ NL.

(** The whole listing of a non-empty table. *)
Definition listing (db : Table) : string :=
  "Available documents in the knowledge base:" ++ NL ++ NL ++
  fold_right (fun d rest => entry d ++ rest) EmptyString db.

(** The resource handle of a record, with the URL the validation made of
    its URI. *)
Definition handle (u : AnyUrl) (d : PDFDocument.t) : Resource :=
  {| uri := u;
     name := PDFDocument.filename d;
     description := "PDF document: " ++ PDFDocument.filename d;
     mimeType := "application/pdf" |}.

(** The metadata summary of a record. *)
Definition summary (d : PDFDocument.t) : string :=
  "Document: " ++ PDFDocument.filename d ++ NL ++
  "Pages: " ++ str_opt_int (PDFDocument.page_count d) ++ NL ++
  "Status: Processed" ++ NL ++
  "Upload Date: " ++ PDFDocument.uploaded_at d ++ NL ++
  "File Size: " ++ str_int (PDFDocument.file_size d) ++ " bytes".

(** A processed record of that filename is in the table. *)
Definition available (db : Table) (f : string) : Prop :=
  exists d, In d db /\ PDFDocument.filename d = f /\ PDFDocument.processed d = true.

Definition UnsupportedSchemeError (uri : string) : Exn :=
  ValueError ("Unsupported URI scheme: " ++ uri).

Definition NotFoundError (filename : string) : Exn :=
  ValueError ("Document not found: " ++ filename).

(** The tool names the dispatcher knows. *)
Definition known_tool (name : string) : bool :=
  (String.eqb name "search_documents" || String.eqb name "list_documents"
   || String.eqb name "get_document_info")%bool.

End Spec.

(** ** Invariants of the store *)

Module Invariant.
Import Uploader.

(** At most one record per filename. *)
Definition unique_filenames (t : Table) : Prop :=
  NoDup (List.map PDFDocument.filename t).

(** No record is both in progress and processed. *)
Definition flags_exclusive (t : Table) : Prop :=
  Forall (fun d => (PDFDocument.processing d && PDFDocument.processed d)%bool = false) t.

(** A property of tables holds at every observation point of a world: of
    the table as it stands and of every committed snapshot. *)
Definition observable (P : Table -> Prop) (w : World) : Prop :=
  P (db w) /\ Forall P (commits w).

(** The engine, run from a world where [P] is observable, leaves one where
    it still is. *)
Definition engine_keeps (P : Table -> Prop)
    (process_pdf : Z -> string -> string -> @SE World unit) : Prop :=
  forall pdf_id pdf_path filename w,
    observable P w -> observable P (snd (process_pdf pdf_id pdf_path filename w)).

End Invariant.

(** ** Scenarios *)

Module Scenario.
Import Uploader.

(** An engine that raises before it touches the store. *)
Definition failing_engine : Z -> string -> string -> @SE World unit :=
  fun _ _ _ w => (Raise (mkExn "RuntimeError" "boom"), w).

(** An engine that returns without touching the store. *)
Definition idle_engine : Z -> string -> string -> @SE World unit :=
  fun _ _ _ w => (Ok tt, w).

(** A search engine with nothing to return. *)
Definition no_passages : pyval -> pyval -> Res (list McpServer.SearchResult) :=
  fun _ _ => Ok [].

(** A search engine that is down. *)
Definition broken_search : pyval -> pyval -> Res (list McpServer.SearchResult) :=
  fun _ _ => Raise (mkExn "RuntimeError" "index unavailable").

Definition uploads : string := "/srv/app/backend/uploads".

Definition clock : string := "2024-05-01 10:00:00".

(** An empty store and one file waiting to be uploaded. *)
Definition fresh_world : World :=
  {| db := [];
     fs := {[ "/home/u/bad.pdf" := "%PDF-1.4 bad" ]};
     out := [];
     commits := [] |}.

(** A processed record whose backing file lives outside the uploads
    directory, as a record written by another front end does. *)
Definition report_row : PDFDocument.t :=
  {| PDFDocument.id := 1;
     PDFDocument.filename := "report.pdf";
     PDFDocument.file_path := "/data/inbox/report.pdf";
     PDFDocument.file_size := 12;
     PDFDocument.uploaded_at := "2024-04-01 09:00:00";
     PDFDocument.page_count := Some 10;
     PDFDocument.chunks_count := Some 42;
     PDFDocument.processing := false;
     PDFDocument.processed := true |}.

(** A record the uploader itself created and that is still in progress. *)
Definition notes_row : PDFDocument.t :=
  {| PDFDocument.id := 2;
     PDFDocument.filename := "notes.pdf";
     PDFDocument.file_path := "/srv/app/backend/uploads/notes.pdf";
     PDFDocument.file_size := 9;
     PDFDocument.uploaded_at := "2024-04-02 09:00:00";
     PDFDocument.page_count := None;
     PDFDocument.chunks_count := None;
     PDFDocument.processing := true;
     PDFDocument.processed := false |}.

Definition library_world : World :=
  {| db := [report_row; notes_row];
     fs := {[ "/data/inbox/report.pdf" := "%PDF-1.4 old";
              "/srv/app/backend/uploads/notes.pdf" := "%PDF-1.4 n";
              "/home/u/report.pdf" := "%PDF-1.4 new report" ]};
     out := [];
     commits := [] |}.

(** Scenario C of the specification: the engine raises on [bad.pdf]. *)
Definition bad_run : Res bool * World :=
  upload_and_process_pdf uploads clock failing_engine
    "/home/u/bad.pdf" EmptyString fresh_world.

(** A confirmed re-upload of [report.pdf] from the user's home. *)
Definition replace_run : Res bool * World :=
  upload_and_process_pdf uploads clock idle_engine
    "/home/u/report.pdf" "y" library_world.

(** A confirmed re-upload of [notes.pdf] from the managed copy itself. *)
Definition same_file_run : Res bool * World :=
  upload_and_process_pdf uploads clock idle_engine
    "/srv/app/backend/uploads/notes.pdf" "Y" library_world.

End Scenario.

(** ** The tool catalogue ([handle_list_tools]) *)

Module McpTools.

(** A JSON value, as the input schemas are written: objects keep the order
    of their keys. *)
#[local] Unset Elimination Schemes.
Inductive json : Type :=
  | JString (s : string)
  | JInteger (n : Z)
  | JBoolean (b : bool)
  | JArray (items : list json)
  | JObject (fields : list (string * json)).
#[local] Set Elimination Schemes.

Record Tool : Type := mkTool {
  name : string;
  description : string;
  inputSchema : json
}.

Definition handle_list_tools : list Tool :=
  [ {| name := "search_documents";
       description := "Search through PDF documents using semantic similarity";
       inputSchema :=
         JObject
           [ ("type", JString "object");
             ("properties",
              JObject
                [ ("query",
                   JObject
                     [ ("type", JString "string");
                       ("description",
                        JString "The search query to find relevant content in PDF documents") ]);
                  ("limit",
                   JObject
                     [ ("type", JString "integer");
                       ("description",
                        JString "Maximum number of results to return (default: 5)");
                       ("default", JInteger 5) ]) ]);
             ("required", JArray [ JString "query" ]) ] |};
    {| name := "list_documents";
       description := "List all available PDF documents in the knowledge base";
       inputSchema :=
         JObject
           [ ("type", JString "object");
             ("properties", JObject []);
             ("additionalProperties", JBoolean false) ] |};
    {| name := "get_document_info";
       description := "Get detailed information about a specific document";
       inputSchema :=
         JObject
           [ ("type", JString "object");
             ("properties",
              JObject
                [ ("filename",
                   JObject
                     [ ("type", JString "string");
                       ("description",
                        JString "The filename of the document to get info about") ]) ]);
             ("required", JArray [ JString "filename" ]) ] |} ].

(** [schema[key]], when [schema] is an object that has the key *)
Definition json_field (key : string) (j : json) : option json :=
  match j with
  | JObject fields =>
      match List.find (fun kv => String.eqb (fst kv) key) fields with
      | Some kv => Some (snd kv)
      | None => None
      end
  | _ => None
  end.

(** The names under [required] of a schema; none when the key is absent. *)
Definition required_fields (schema : json) : list string :=
  match json_field "required" schema with
  | Some (JArray items) =>
      List.flat_map (fun j => match j with JString s => [s] | _ => [] end) items
  | _ => []
  end.

(** The [default] a schema declares for a property, as a Python value. *)
Definition declared_default (schema : json) (property : string) : option pyval :=
  match json_field "properties" schema with
  | Some properties =>
      match json_field property properties with
      | Some p =>
          match json_field "default" p with
          | Some (JInteger n) => Some (VInt n)
          | Some (JString s) => Some (VStr s)
          | Some (JBoolean b) => Some (VBool b)
          | _ => None
          end
      | None => None
      end
  | None => None
  end.

End McpTools.

(** ** The command line ([main] of [upload_pdf.py]) *)

Module UploaderCli.
Import Uploader.

(** The double quote character. *)
Definition DQ : string := String "034"%char EmptyString.

(** [s * n] *)
Fixpoint str_repeat (s : string) (n : nat) : string :=
  match n with
  | O => EmptyString
  | S n' => s ++ str_repeat s n'
  end.

Section Main.
Variable uploads_dir : string.
Variable now : string.
Variable process_pdf : Z -> string -> string -> @SE World unit.

(** [main()], with [argv] for [sys.argv] and [response] for what the user
    types if asked; the result is the exit status of the process: the
    argument of [sys.exit], or 0 when [main] returns.  [PDFUploader()]
    finds the tables and the uploads directory in place; an exception
    that reached the top level would end the process with status 1. *)
Definition main (argv : list string) (response : string) : World -> Z * World :=
  fun w =>
    if negb (Nat.eqb (length argv) 2) then
      match (print "Usage: python upload_pdf.py <path_to_pdf_file>" ;;
             print ("Example: python upload_pdf.py " ++ DQ ++
                    "C:\Documents\my_book.pdf" ++ DQ)) w with
      | (_, w') => (1, w')
      end
    else
      let pdf_path := nth 1 argv EmptyString in
      match (print "🚀 PDF Upload and Processing Tool" ;;
             print (str_repeat "=" 40) ;;
             upload_and_process_pdf uploads_dir now process_pdf pdf_path response) w with
      | (Ok true, w') =>
          match (print (NL ++ "🎉 Success! Your PDF has been uploaded and processed.") ;;
                 print "You can now search for content using:" ;;
                 print "- The web interface at http://localhost:8000" ;;
                 print "- Claude Desktop MCP tools" ;;
                 print "- Cursor MCP integration") w' with
          | (_, w'') => (0, w'')
          end
      | (Ok false, w') =>
          match print (NL ++ "💥 Failed to upload and process PDF.") w' with
          | (_, w'') => (1, w'')
          end
      | (Raise _, w') => (1, w')
      end.
End Main.

End UploaderCli.

(** ** The shapes an upload can take *)

Module Shape.
Import Uploader Trace.

(** How a run of [upload_and_process_pdf] went, and what it returned. *)
Inductive Run (uploads_dir now : string)
    (process_pdf : Z -> string -> string -> @SE World unit)
    (pdf_path response : string) (w : World) : Res bool * World -> Prop :=
  | Run_missing :
      fs w !! pdf_path = None ->
      Run uploads_dir now process_pdf pdf_path response w
        (Ok false, say ("❌ Error: File not found: " ++ pdf_path) w)
  | Run_not_pdf content :
      fs w !! pdf_path = Some content ->
      endswith (lower pdf_path) ".pdf" = false ->
      Run uploads_dir now process_pdf pdf_path response w
        (Ok false, say ("❌ Error: File must be a PDF: " ++ pdf_path) w)
  | Run_cancelled content doc :
      fs w !! pdf_path = Some content ->
      endswith (lower pdf_path) ".pdf" = true ->
      List.find (fun d => String.eqb (PDFDocument.filename d) (basename pdf_path)) (db w)
        = Some doc ->
      confirms response = false ->
      Run uploads_dir now process_pdf pdf_path response w
        (Ok false,
         say "❌ Upload cancelled"
           (say "Do you want to reprocess it? (y/N): "
              (say ("⚠️  Warning: Document '" ++ basename pdf_path ++
                    "' already exists in database")
                 (announced pdf_path content w))))
  | Run_same_file content existing_doc :
      fs w !! pdf_path = Some content ->
      endswith (lower pdf_path) ".pdf" = true ->
      List.find (fun d => String.eqb (PDFDocument.filename d) (basename pdf_path)) (db w)
        = existing_doc ->
      goes_ahead existing_doc response = true ->
      pdf_path = path_join uploads_dir (basename pdf_path) ->
      Run uploads_dir now process_pdf pdf_path response w
        (Ok false,
         say ("❌ Error during upload: " ++
              exn_str (SameFileError pdf_path
                         (path_join uploads_dir (basename pdf_path))))
           (resolved pdf_path content existing_doc w))
  | Run_engine content existing_doc :
      fs w !! pdf_path = Some content ->
      endswith (lower pdf_path) ".pdf" = true ->
      List.find (fun d => String.eqb (PDFDocument.filename d) (basename pdf_path)) (db w)
        = existing_doc ->
      goes_ahead existing_doc response = true ->
      pdf_path <> path_join uploads_dir (basename pdf_path) ->
      Run uploads_dir now process_pdf pdf_path response w
        (conclude (basename pdf_path)
           (process_pdf
              (next_id (db (resolved pdf_path content existing_doc w)))
              (path_join uploads_dir (basename pdf_path))
              (basename pdf_path)
              (staged uploads_dir now pdf_path content existing_doc w))).

End Shape.

(** ** The text of a search answer *)

Module SearchText.
Import McpServer.

(** The block printed for the passage numbered [i]. *)
Definition block (i : Z) (result : SearchResult) (content : pyval) : string :=
  NL ++ "--- Result " ++ str_int i ++ " ---" ++ NL ++
  "Relevance Score: " ++ str (dict_get result "distance" (VStr "N/A")) ++ NL ++
  "Content:" ++ NL ++ str content ++ NL.

(** The blocks of the passages, numbered from [i] on, in the order the
    engine returned them; a passage without content prints [None]. *)
Fixpoint blocks (i : Z) (results : list SearchResult) : string :=
  match results with
  | [] => EmptyString
  | result :: rest =>
      block i result (dict_get result "content" VNone) ++ blocks (i + 1) rest
  end.

(** The first line of an answer with passages. *)
Definition found_line (n : nat) (query : pyval) : string :=
  "Found " ++ str_int (Z.of_nat n) ++ " relevant results for query: '" ++
  str query ++ "'" ++ NL.

End SearchText.

(** ** More scenarios *)

Module Scenario2.
Import Uploader Scenario.

(** A search engine with two passages, the second without a distance. *)
Definition two_passages : pyval -> pyval -> Res (list McpServer.SearchResult) :=
  fun _ _ =>
    Ok [ {[ "content" := VStr "Quarterly revenue grew.";
            "distance" := VOther true "0.12" ]};
         {[ "content" := VStr "Costs were flat." ]} ].

(** A search engine whose second passage has no content. *)
Definition one_bad_passage : pyval -> pyval -> Res (list McpServer.SearchResult) :=
  fun _ _ =>
    Ok [ {[ "content" := VStr "Quarterly revenue grew." ]};
         {[ "distance" := VOther true "0.40" ]} ].

Definition revenue_query : gmap string pyval := {[ "query" := VStr "revenue" ]}.

Fixpoint has_blank (s : string) : bool :=
  match s with
  | EmptyString => false
  | String c r => (Ascii.eqb c " " || has_blank r)%bool
  end.

(** A URL validation that takes any text without a blank as it is, and
    refuses a text with one. *)
Definition plain_url (text : string) : Res McpServer.AnyUrl :=
  if has_blank text
  then Raise (mkExn "ValidationError" ("Input should be a valid URL: " ++ text))
  else Ok (McpServer.mkAnyUrl text).

(** A store with one scanned file waiting, its extension in capitals. *)
Definition caps_world : World :=
  {| db := [];
     fs := {[ "/home/u/SCAN.PDF" := "%PDF-1.4 scan" ]};
     out := [];
     commits := [] |}.

(** A processed record whose filename has a blank in it. *)
Definition spaced_row : PDFDocument.t :=
  {| PDFDocument.id := 4;
     PDFDocument.filename := "My Report.pdf";
     PDFDocument.file_path := "/srv/app/backend/uploads/My Report.pdf";
     PDFDocument.file_size := 2048;
     PDFDocument.uploaded_at := "2024-04-04 09:00:00";
     PDFDocument.page_count := Some 3;
     PDFDocument.chunks_count := Some 7;
     PDFDocument.processing := false;
     PDFDocument.processed := true |}.



End Scenario2.

(** ** Properties *)

Section UploadCases.
Import Uploader Trace.
Variables uploads_dir now : string.
Variable process_pdf : Z -> string -> string -> @SE World unit.

Local Abbreviation upload := (upload_and_process_pdf uploads_dir now process_pdf).

Lemma upload_missing pdf_path response w :
  fs w !! pdf_path = None ->
  upload pdf_path response w =
    (Ok false, say ("❌ Error: File not found: " ++ pdf_path) w).
Proof.
  intros H. unfold upload_and_process_pdf, try_except, bind, os_path_exists, gets.
  rewrite H. rewrite bool_decide_eq_false_2 by (intros [x Hx]; discriminate).
  reflexivity.
Qed.

Lemma upload_not_pdf pdf_path response content w :
  fs w !! pdf_path = Some content ->
  endswith (lower pdf_path) ".pdf" = false ->
  upload pdf_path response w =
    (Ok false, say ("❌ Error: File must be a PDF: " ++ pdf_path) w).
Proof.
  intros H E. unfold upload_and_process_pdf, try_except, bind, os_path_exists, gets.
  rewrite H. rewrite bool_decide_eq_true_2 by eauto.
  cbv beta iota. rewrite E. reflexivity.
Qed.

Ltac run_upload :=
  unfold upload_and_process_pdf, _process_pdf_async, input, try_except, bind, ret,
    os_path_exists, os_path_getsize, query_first_by_filename, gets,
    shutil_copy2, db_delete, db_add, db_commit, print, modify.

Ltac step := cbn [negb fs db out commits PDFDocument.id].

Lemma upload_cancelled pdf_path response content doc w :
  fs w !! pdf_path = Some content ->
  endswith (lower pdf_path) ".pdf" = true ->
  List.find (fun d => String.eqb (PDFDocument.filename d) (basename pdf_path)) (db w)
    = Some doc ->
  confirms response = false ->
  upload pdf_path response w =
    (Ok false,
     say "❌ Upload cancelled"
       (say "Do you want to reprocess it? (y/N): "
          (say ("⚠️  Warning: Document '" ++ basename pdf_path ++
                "' already exists in database")
             (announced pdf_path content w)))).
Proof.
  intros H E F C. unfold confirms in C. run_upload.
  rewrite H. rewrite bool_decide_eq_true_2 by eauto.
  step. rewrite E. step. rewrite H. step. rewrite F. step. rewrite C.
  reflexivity.
Qed.

Lemma upload_same_file pdf_path response content existing_doc w :
  fs w !! pdf_path = Some content ->
  endswith (lower pdf_path) ".pdf" = true ->
  List.find (fun d => String.eqb (PDFDocument.filename d) (basename pdf_path)) (db w)
    = existing_doc ->
  goes_ahead existing_doc response = true ->
  pdf_path = path_join uploads_dir (basename pdf_path) ->
  upload pdf_path response w =
    (Ok false,
     say ("❌ Error during upload: " ++
          exn_str (SameFileError pdf_path (path_join uploads_dir (basename pdf_path))))
       (resolved pdf_path content existing_doc w)).
Proof.
  intros H E F G S. run_upload.
  rewrite H. rewrite bool_decide_eq_true_2 by eauto.
  step. rewrite E. step. rewrite H. step. rewrite F. apply String.eqb_eq in S.
  destruct existing_doc as [doc|]; cbn [goes_ahead] in G.
  - unfold confirms in G. step. rewrite G. step. rewrite S. reflexivity.
  - step. rewrite S. reflexivity.
Qed.

Lemma upload_engine pdf_path response content existing_doc w :
  fs w !! pdf_path = Some content ->
  endswith (lower pdf_path) ".pdf" = true ->
  List.find (fun d => String.eqb (PDFDocument.filename d) (basename pdf_path)) (db w)
    = existing_doc ->
  goes_ahead existing_doc response = true ->
  pdf_path <> path_join uploads_dir (basename pdf_path) ->
  upload pdf_path response w =
    conclude (basename pdf_path)
      (process_pdf
         (next_id (db (resolved pdf_path content existing_doc w)))
         (path_join uploads_dir (basename pdf_path))
         (basename pdf_path)
         (staged uploads_dir now pdf_path content existing_doc w)).
Proof.
  intros H E F G S. run_upload.
  rewrite H. rewrite bool_decide_eq_true_2 by eauto.
  step. rewrite E. step. rewrite H. step. rewrite F. apply String.eqb_neq in S.
  unfold conclude.
  destruct existing_doc as [doc|]; cbn [goes_ahead] in G.
  - unfold confirms in G. step. rewrite G. step. rewrite S. rewrite H. step.
    cbv [staged resolved after_copy after_create after_delete new_row say
         announced fs db out commits PDFDocument.id].
    match goal with |- context [process_pdf ?a ?b ?c ?d] =>
      destruct (process_pdf a b c d) as [[[]|e] w4] end; reflexivity.
  - step. rewrite S. rewrite H. step.
    cbv [staged resolved after_copy after_create after_delete new_row say
         announced fs db out commits PDFDocument.id].
    match goal with |- context [process_pdf ?a ?b ?c ?d] =>
      destruct (process_pdf a b c d) as [[[]|e] w4] end; reflexivity.
Qed.

End UploadCases.

Section StringFacts.

Lemma string_app_cons (x : ascii) (a b : string) :
  String x a ++ b = String x (a ++ b).
Proof. reflexivity. Qed.

Lemma string_app_assoc (a b c : string) : (a ++ b) ++ c = a ++ (b ++ c).
Proof.
  induction a as [|x a IH]; [reflexivity|].
  rewrite !string_app_cons. now rewrite IH.
Qed.

Lemma string_app_nil_r (a : string) : a ++ EmptyString = a.
Proof.
  induction a as [|x a IH]; [reflexivity|].
  rewrite string_app_cons. now rewrite IH.
Qed.

Lemma join_empty_cons (x : string) (l : list string) :
  join EmptyString (x :: l) = x ++ join EmptyString l.
Proof. destruct l; simpl; [now rewrite string_app_nil_r | reflexivity]. Qed.

Lemma join_empty_app (l1 l2 : list string) :
  join EmptyString (l1 ++ l2)%list = join EmptyString l1 ++ join EmptyString l2.
Proof.
  induction l1 as [|x l1 IH]; [reflexivity|].
  change ((x :: l1) ++ l2)%list with (x :: (l1 ++ l2))%list.
  rewrite !join_empty_cons, IH. now rewrite string_app_assoc.
Qed.

Lemma join_empty_map {A} (f : A -> string) (l : list A) :
  join EmptyString (List.map f l) = fold_right (fun d rest => f d ++ rest) EmptyString l.
Proof.
  induction l as [|x l IH]; [reflexivity|].
  change (List.map f (x :: l)) with (f x :: List.map f l).
  rewrite join_empty_cons, IH. reflexivity.
Qed.

Lemma fold_left_append {A B} (f : A -> B) (l : list A) (acc : list B) :
  fold_left (fun parts x => list_append parts (f x)) l acc = (acc ++ List.map f l)%list.
Proof.
  revert acc. induction l as [|x l IH]; intros acc; simpl.
  - now rewrite app_nil_r.
  - rewrite IH. unfold list_append. now rewrite <- app_assoc.
Qed.

End StringFacts.

(** *** The tool dispatcher *)

Section ToolFacts.
Import McpServer Spec.
Variable vector_store_search : pyval -> pyval -> Res (list SearchResult).

Local Abbreviation call_tool := (handle_call_tool vector_store_search).

Lemma list_entry_entry (d : PDFDocument.t) : list_entry d = entry d.
Proof.
  unfold list_entry, entry, status_emoji, status_text, derived_status.
  destruct (PDFDocument.processed d), (PDFDocument.processing d); reflexivity.
Qed.


Lemma list_documents_text (db : Table) (arguments : gmap string pyval) (log : SearchLog) :
  db <> [] ->
  call_tool db "list_documents" arguments log = (Ok (text_content (listing db)), log).
Proof.
  intros Hne. unfold handle_call_tool.
  change (String.eqb "list_documents" "search_documents") with false.
  change (String.eqb "list_documents" "list_documents") with true.
  cbv iota. unfold try_except, ret.
  destruct db as [|d db]; [congruence|].
  rewrite fold_left_append.
  rewrite join_empty_app, join_empty_map.
  unfold listing. f_equal. f_equal.
  change (join EmptyString ["Available documents in the knowledge base:" ++ NL ++ NL])
    with ("Available documents in the knowledge base:" ++ NL ++ NL).
  rewrite !string_app_assoc. do 4 f_equal.
  clear Hne. induction (d :: db) as [|x l IH]; [reflexivity|].
  cbn [fold_right]. now rewrite IH, list_entry_entry.
Qed.

Lemma dict_index_cases (d : gmap string pyval) (k : string) :
  (exists v, dict_index d k = Ok v) \/ dict_index d k = Raise (KeyError k).
Proof. unfold dict_index. destruct (d !! k); eauto. Qed.

Lemma format_results_total (results : list SearchResult) :
  forall i parts,
    (exists parts', format_results i results parts = Ok parts') \/
    format_results i results parts = Raise (KeyError "content").
Proof.
  induction results as [|r rest IH]; intros i parts; cbn [format_results].
  - left. eauto.
  - destruct (dict_index_cases r "content") as [[v ->] | ->]; [apply IH | now right].
Qed.

(** C10.  With no Document record in the store, [list_documents] answers
    with the literal text [No documents found in the knowledge base.]
    rather than an empty listing. *)
Theorem list_documents_empty_store (arguments : gmap string pyval) (log : SearchLog) :
  call_tool [] "list_documents" arguments log =
    (Ok [ {| type := "text"; text := "No documents found in the knowledge base." |} ], log).
Proof. reflexivity. Qed.

(** C6.  A [search_documents] call whose query is the empty string, or
    whose query argument is absent, is answered with the literal text
    [Error: Query is required], and the log of calls made to the search
    engine is what it was: the engine is not invoked. *)
Theorem empty_query_rejected (db : Table) (arguments : gmap string pyval) (log : SearchLog) :
  arguments !! "query" = None \/ arguments !! "query" = Some (VStr EmptyString) ->
  call_tool db "search_documents" arguments log =
    (Ok [ {| type := "text"; text := "Error: Query is required" |} ], log).
Proof.
  intros H. unfold handle_call_tool.
  change (String.eqb "search_documents" "search_documents") with true.
  cbv iota. unfold dict_get at 1.
  destruct H as [-> | ->]; reflexivity.
Qed.

(** A query the handler accepts reaches the engine exactly once, with the
    limit of the call or 5. *)
Lemma accepted_query_invokes_engine (db : Table) (arguments : gmap string pyval)
    (log : SearchLog) :
  truthy (dict_get arguments "query" (VStr EmptyString)) = true ->
  snd (call_tool db "search_documents" arguments log) =
    (log ++ [ (dict_get arguments "query" (VStr EmptyString),
               dict_get arguments "limit" (VInt 5)) ])%list.
Proof.
  intros H. unfold handle_call_tool.
  change (String.eqb "search_documents" "search_documents") with true.
  cbv iota. rewrite H. cbn [negb]. unfold try_except, bind, search, lift, ret.
  destruct (vector_store_search _ _) as [[|r rest]|e]; try reflexivity.
  destruct (format_results _ _ _); reflexivity.
Qed.

Lemma known_tool_true_l name : String.eqb name "search_documents" = true -> known_tool name = true.
Proof. intros H. unfold known_tool. now rewrite H. Qed.

Lemma known_tool_true_m name : String.eqb name "list_documents" = true -> known_tool name = true.
Proof. intros H. unfold known_tool. rewrite H. now rewrite orb_true_r. Qed.

Lemma known_tool_true_r name : String.eqb name "get_document_info" = true -> known_tool name = true.
Proof. intros H. unfold known_tool. rewrite H. now rewrite orb_true_r. Qed.

(** A failure of the search engine comes back as text carrying its message. *)
Lemma search_failure_reported (db : Table) (arguments : gmap string pyval)
    (log : SearchLog) (e : Exn) :
  truthy (dict_get arguments "query" (VStr EmptyString)) = true ->
  vector_store_search (dict_get arguments "query" (VStr EmptyString))
    (dict_get arguments "limit" (VInt 5)) = Raise e ->
  fst (call_tool db "search_documents" arguments log) =
    Ok (text_content ("Error performing search: " ++ exn_str e)).
Proof.
  intros H R. unfold handle_call_tool.
  change (String.eqb "search_documents" "search_documents") with true.
  cbv iota. rewrite H. cbn [negb]. unfold try_except, bind, search, lift, ret.
  rewrite R. reflexivity.
Qed.

(** A filename no record carries comes back as a [not found] text. *)
Lemma missing_document_reported (db : Table) (arguments : gmap string pyval)
    (log : SearchLog) (s : string) :
  arguments !! "filename" = Some (VStr s) ->
  s <> EmptyString ->
  List.find (filename_is (VStr s)) db = None ->
  call_tool db "get_document_info" arguments log =
    (Ok (text_content ("Document '" ++ s ++ "' not found.")), log).
Proof.
  intros A N F. unfold handle_call_tool.
  change (String.eqb "get_document_info" "search_documents") with false.
  change (String.eqb "get_document_info" "list_documents") with false.
  change (String.eqb "get_document_info" "get_document_info") with true.
  cbv iota. unfold dict_get. rewrite A. cbn [truthy].
  apply String.eqb_neq in N. rewrite N. cbn [negb].
  unfold try_except, ret. rewrite F. reflexivity.
Qed.

(** C5.  Whatever the tool name, the arguments, the table and the
    behaviour of the search engine, a tool call returns one textual
    content block and raises nothing; a name that is none of the three
    tools is answered with [Unknown tool: <name>]. *)
Theorem tool_call_returns_text (db : Table) (name : string)
    (arguments : gmap string pyval) (log : SearchLog) :
  exists t : string,
    fst (call_tool db name arguments log) = Ok [ {| type := "text"; text := t |} ] /\
    (known_tool name = false -> t = "Unknown tool: " ++ name).
Proof.
  unfold handle_call_tool.
  destruct (String.eqb name "search_documents") eqn:E1.
  { apply known_tool_true_l in E1.
    destruct (truthy (dict_get arguments "query" (VStr EmptyString))); cbn [negb].
    2:{ eexists; split; [reflexivity | congruence]. }
    unfold try_except, bind, search, lift, ret.
    destruct (vector_store_search _ _) as [[|r rest]|e].
    - eexists; split; [reflexivity | congruence].
    - match goal with |- context [format_results ?i ?l ?p] =>
        destruct (format_results_total l i p) as [[parts' ->] | ->] end;
        (eexists; split; [reflexivity | congruence]).
    - eexists; split; [reflexivity | congruence]. }
  destruct (String.eqb name "list_documents") eqn:E2.
  { apply known_tool_true_m in E2. unfold try_except, ret.
    destruct db; (eexists; split; [reflexivity | congruence]). }
  destruct (String.eqb name "get_document_info") eqn:E3.
  { apply known_tool_true_r in E3.
    destruct (truthy (dict_get arguments "filename" (VStr EmptyString))); cbn [negb].
    2:{ eexists; split; [reflexivity | congruence]. }
    unfold try_except, bind, lift, ret.
    destruct (List.find _ db) as [d|].
    2:{ eexists; split; [reflexivity | congruence]. }
    destruct (PDFDocument.processed d).
    - unfold gt_zero. destruct (PDFDocument.chunks_count d) as [n|].
      + destruct (0 <? n), (PDFDocument.processing d);
          (eexists; split; [reflexivity | congruence]).
      + eexists; split; [reflexivity | congruence].
    - destruct (PDFDocument.processing d);
        (eexists; split; [reflexivity | congruence]). }
  eexists; split; [reflexivity | reflexivity].
Qed.

(** A processed record whose chunk count was never set makes the
    comparison raise; the handler turns that into an error text. *)
Lemma unset_chunk_count_reported (db : Table) (arguments : gmap string pyval)
    (log : SearchLog) (s : string) (d : PDFDocument.t) :
  arguments !! "filename" = Some (VStr s) ->
  s <> EmptyString ->
  List.find (filename_is (VStr s)) db = Some d ->
  PDFDocument.processed d = true ->
  PDFDocument.chunks_count d = None ->
  call_tool db "get_document_info" arguments log =
    (Ok (text_content
           ("Error getting document info: " ++
            "'>' not supported between instances of 'NoneType' and 'int'")), log).
Proof.
  intros A N F P C. unfold handle_call_tool.
  change (String.eqb "get_document_info" "search_documents") with false.
  change (String.eqb "get_document_info" "list_documents") with false.
  change (String.eqb "get_document_info" "get_document_info") with true.
  cbv iota. unfold dict_get. rewrite A. cbn [truthy].
  apply String.eqb_neq in N. rewrite N. cbn [negb].
  unfold try_except, bind, lift, ret. rewrite F, P, C. reflexivity.
Qed.


End ToolFacts.

(** *** Resources *)

Section ResourceFacts.
Import McpServer Spec.

Lemma find_processed_available (db : Table) (f : string) :
  (exists d, List.find (fun d => (String.eqb (PDFDocument.filename d) f
                                  && PDFDocument.processed d)%bool) db = Some d /\
             In d db /\ PDFDocument.filename d = f /\ PDFDocument.processed d = true)
  \/ (List.find (fun d => (String.eqb (PDFDocument.filename d) f
                           && PDFDocument.processed d)%bool) db = None /\
      ~ available db f).
Proof.
  destruct (List.find _ db) as [d|] eqn:F.
  - left. exists d. apply find_some in F as [I E].
    apply andb_true_iff in E as [E P]. apply String.eqb_eq in E. auto.
  - right. split; [reflexivity|]. intros (d & I & E & P).
    apply (find_none _ _ F) in I. rewrite E, String.eqb_refl, P in I. discriminate.
Qed.

(** What [handle_read_resource] does when it is given the URI as a [str]. *)
Lemma read_resource_given_text (db : Table) :
  (forall f,
     handle_read_resource db (GivenStr ("pdf://" ++ f)) =
       match List.find (fun d => (String.eqb (PDFDocument.filename d) f
                                  && PDFDocument.processed d)%bool) db with
       | Some d => Ok (summary d)
       | None => Raise (NotFoundError f)
       end) /\
  (forall u, startswith u "pdf://" = false ->
     handle_read_resource db (GivenStr u) = Raise (UnsupportedSchemeError u)).
Proof.
  split.
  - intros f. unfold handle_read_resource.
    change (startswith ("pdf://" ++ f) "pdf://") with true.
    change (slice_from 6 ("pdf://" ++ f)) with f. cbn [negb].
    destruct (List.find _ db); reflexivity.
  - intros u H. unfold handle_read_resource. now rewrite H.
Qed.

Section Listing.
Variable validate_url : string -> Res AnyUrl.

Lemma append_resources_raises (documents : list PDFDocument.t) :
  forall resources d e,
    In d documents ->
    validate_url ("pdf://" ++ PDFDocument.filename d) = Raise e ->
    exists e', append_resources validate_url documents resources = Raise e'.
Proof.
  induction documents as [|doc rest IH]; intros resources d e I V; [inversion I|].
  cbn [append_resources]. unfold new_Resource.
  destruct (validate_url ("pdf://" ++ PDFDocument.filename doc)) as [u|e0] eqn:H.
  - destruct I as [-> | I]; [congruence|]. now apply (IH _ d e).
  - eauto.
Qed.

Lemma append_resources_ok (documents : list PDFDocument.t) :
  forall resources handles,
    append_resources validate_url documents resources = Ok handles ->
    length handles = (length resources + length documents)%nat /\
    forall h, In h handles ->
      In h resources \/
      exists d, In d documents /\
                validate_url ("pdf://" ++ PDFDocument.filename d) = Ok (uri h) /\
                h = handle (uri h) d.
Proof.
  induction documents as [|doc rest IH]; intros resources handles H.
  - injection H as <-. split; [cbn; lia | auto].
  - cbn [append_resources] in H. unfold new_Resource in H.
    destruct (validate_url ("pdf://" ++ PDFDocument.filename doc)) as [u|e0] eqn:V;
      [|discriminate H].
    apply IH in H as [L H]. split.
    + rewrite L. unfold list_append. rewrite length_app. cbn. lia.
    + intros h I. destruct (H h I) as [I' | (d & Id & Vd & E)].
      * unfold list_append in I'. apply in_app_or in I' as [I' | [<- | []]]; [now left|].
        right. exists doc. split; [now left|]. split; [exact V | reflexivity].
      * right. exists d. split; [now right | auto].
Qed.

(** C4.  Where the claim fails on the code.  [list_resources] builds each
    handle through the URL validation of [Resource]: as soon as the URI
    [pdf://<filename>] of one processed record is refused, the call
    raises and no handle at all is returned.  And [read_resource], as the
    protocol layer calls it, is given the URL object of the request:
    [uri.startswith] raises [AttributeError] for every URI, whether the
    document is processed, missing, or the scheme another one. *)
Theorem resources_break_on_urls (db : Table) (d : PDFDocument.t) (e : Exn) :
  In d db ->
  PDFDocument.processed d = true ->
  validate_url ("pdf://" ++ PDFDocument.filename d) = Raise e ->
  (exists e', handle_list_resources validate_url db = Raise e') /\
  (forall u, exists e',
     handle_read_resource db (GivenUrl u) = Raise e' /\
     exn_class e' = "AttributeError").
Proof.
  intros I P V. split.
  - unfold handle_list_resources.
    apply (append_resources_raises _ [] d e); [|exact V].
    apply filter_In. auto.
  - intros u. eexists. split; reflexivity.
Qed.

End Listing.

End ResourceFacts.

(** *** Lists of records *)

Section TableFacts.
Import Uploader Invariant.

Lemma unique_filenames_same (t : Table) (a b : PDFDocument.t) :
  unique_filenames t -> In a t -> In b t ->
  PDFDocument.filename a = PDFDocument.filename b -> a = b.
Proof.
  unfold unique_filenames. induction t as [|x t IH]; intros N Ia Ib E; [inversion Ia|].
  cbn [List.map] in N. inversion N as [|? ? Hx Ht]; subst.
  destruct Ia as [<-|Ia], Ib as [<-|Ib]; auto.
  - exfalso. apply Hx. rewrite E. now apply in_map.
  - exfalso. apply Hx. rewrite <- E. now apply in_map.
Qed.

Lemma unique_filenames_filter (p : PDFDocument.t -> bool) (t : Table) :
  unique_filenames t -> unique_filenames (List.filter p t).
Proof.
  unfold unique_filenames. induction t as [|x t IH]; intros N; [exact N|].
  cbn [List.map] in N. inversion N as [|? ? Hx Ht]; subst.
  cbn [List.filter]. destruct (p x); [|auto].
  cbn [List.map]. constructor; [|auto].
  intros I. apply Hx. apply in_map_iff in I as (d & E & I).
  apply filter_In in I as [I _]. rewrite <- E. now apply in_map.
Qed.

Lemma unique_filenames_snoc (t : Table) (row : PDFDocument.t) :
  unique_filenames t ->
  (forall d, In d t -> PDFDocument.filename d <> PDFDocument.filename row) ->
  unique_filenames (list_append t row).
Proof.
  unfold unique_filenames, list_append. intros N F.
  rewrite List.map_app. cbn [List.map].
  induction t as [|x t IH]; cbn [List.map app].
  - constructor; [intros []|constructor].
  - cbn [List.map] in N. inversion N as [|? ? Hx Ht]; subst. constructor.
    + intros I. apply in_app_or in I as [I|[I|[]]]; [now apply Hx|].
      apply (F x); [now left | now symmetry].
    + apply IH; [exact Ht|]. intros d I. apply F. now right.
Qed.

(** Once the first record of a name is deleted from a table with unique
    names, no record of that name is left. *)
Lemma name_free_after_delete (t : Table) (f : string) (doc : PDFDocument.t) :
  unique_filenames t ->
  List.find (fun d => String.eqb (PDFDocument.filename d) f) t = Some doc ->
  forall d,
    In d (List.filter (fun d => negb (PDFDocument.id d =? PDFDocument.id doc)) t) ->
    PDFDocument.filename d <> f.
Proof.
  intros N F d I E. apply filter_In in I as [I K].
  apply find_some in F as [Idoc Edoc]. apply String.eqb_eq in Edoc.
  assert (d = doc) as -> by (apply (unique_filenames_same t); congruence).
  rewrite Z.eqb_refl in K. discriminate.
Qed.

Lemma name_free_when_absent (t : Table) (f : string) :
  List.find (fun d => String.eqb (PDFDocument.filename d) f) t = None ->
  forall d, In d t -> PDFDocument.filename d <> f.
Proof.
  intros F d I E. apply (find_none _ _ F) in I.
  rewrite E, String.eqb_refl in I. discriminate.
Qed.

Lemma filter_none {A} (p : A -> bool) (l : list A) :
  (forall x, In x l -> p x = false) -> List.filter p l = [].
Proof.
  induction l as [|x l IH]; intros H; [reflexivity|].
  cbn [List.filter]. rewrite (H x) by now left. apply IH. intros y I. apply H. now right.
Qed.

Lemma flags_exclusive_filter (p : PDFDocument.t -> bool) (t : Table) :
  flags_exclusive t -> flags_exclusive (List.filter p t).
Proof.
  unfold flags_exclusive. rewrite !List.Forall_forall. intros H d I.
  apply filter_In in I as [I _]. auto.
Qed.

Lemma flags_exclusive_snoc (t : Table) (row : PDFDocument.t) :
  flags_exclusive t ->
  PDFDocument.processed row = false ->
  flags_exclusive (list_append t row).
Proof.
  unfold flags_exclusive, list_append. intros H E.
  apply List.Forall_app. split; [exact H|].
  constructor; [|constructor]. rewrite E. apply andb_false_r.
Qed.

End TableFacts.

(** *** What an upload preserves *)

Section UploadKeeps.
Import Uploader Trace Invariant.
Variables uploads_dir now : string.
Variable process_pdf : Z -> string -> string -> @SE World unit.
Variable P : Table -> Prop.

Local Abbreviation upload := (upload_and_process_pdf uploads_dir now process_pdf).

(** [P] survives the deletion of a record. *)
Hypothesis P_delete :
  forall t doc, P t ->
    P (List.filter (fun d => negb (PDFDocument.id d =? PDFDocument.id doc)) t).

(** [P] survives the creation of a record in progress, in a table that was
    found without a record of that name or that just lost the one it had. *)
Hypothesis P_create :
  forall t existing_doc row,
    P t ->
    List.find (fun d => String.eqb (PDFDocument.filename d) (PDFDocument.filename row)) t
      = existing_doc ->
    PDFDocument.processing row = true ->
    PDFDocument.processed row = false ->
    P (list_append
         (match existing_doc with
          | None => t
          | Some doc =>
              List.filter (fun d => negb (PDFDocument.id d =? PDFDocument.id doc)) t
          end) row).

Hypothesis engine_ok : engine_keeps P process_pdf.

Lemma observable_say line w : observable P w -> observable P (say line w).
Proof. intros H. exact H. Qed.

Lemma observable_commit (t : Table) (snapshots : list Table) :
  P t -> Forall P snapshots -> Forall P (list_append snapshots t).
Proof.
  intros Ht Hs. unfold list_append. apply List.Forall_app. split; [exact Hs|].
  constructor; [exact Ht | constructor].
Qed.

Lemma observable_resolved pdf_path content existing_doc w :
  observable P w -> observable P (resolved pdf_path content existing_doc w).
Proof.
  intros [Hd Hc]. destruct existing_doc as [doc|]; [|split; assumption].
  split; cbn [resolved say after_delete announced db commits].
  - now apply P_delete.
  - apply observable_commit; [now apply P_delete | exact Hc].
Qed.

Lemma db_resolved pdf_path content existing_doc w :
  db (resolved pdf_path content existing_doc w) =
    match existing_doc with
    | None => db w
    | Some doc =>
        List.filter (fun d => negb (PDFDocument.id d =? PDFDocument.id doc)) (db w)
    end.
Proof. destruct existing_doc; reflexivity. Qed.

Lemma db_staged pdf_path content existing_doc w :
  db (staged uploads_dir now pdf_path content existing_doc w) =
    list_append (db (resolved pdf_path content existing_doc w))
      (new_row now (basename pdf_path) (path_join uploads_dir (basename pdf_path))
         (Z.of_nat (String.length content))
         (db (resolved pdf_path content existing_doc w))).
Proof. reflexivity. Qed.

Lemma commits_staged pdf_path content existing_doc w :
  commits (staged uploads_dir now pdf_path content existing_doc w) =
    list_append (commits (resolved pdf_path content existing_doc w))
      (db (staged uploads_dir now pdf_path content existing_doc w)).
Proof. reflexivity. Qed.

Lemma fs_staged pdf_path content existing_doc w :
  fs (staged uploads_dir now pdf_path content existing_doc w) =
    <[path_join uploads_dir (basename pdf_path) := content]> (fs w).
Proof. destruct existing_doc; reflexivity. Qed.

Lemma observable_staged pdf_path content existing_doc w :
  List.find (fun d => String.eqb (PDFDocument.filename d) (basename pdf_path)) (db w)
    = existing_doc ->
  observable P w ->
  observable P (staged uploads_dir now pdf_path content existing_doc w).
Proof.
  intros F H. pose proof (observable_resolved pdf_path content existing_doc w H) as [Rd Rc].
  assert (T : P (db (staged uploads_dir now pdf_path content existing_doc w))).
  { rewrite db_staged, db_resolved. destruct H as [Hd _].
    apply (P_create (db w) existing_doc); auto. }
  split; [exact T|]. rewrite commits_staged. now apply observable_commit.
Qed.

Lemma observable_conclude filename r :
  observable P (snd r) -> observable P (snd (conclude filename r)).
Proof. destruct r as [[[]|e] w]; intros H; exact H. Qed.

Lemma upload_keeps pdf_path response w :
  observable P w -> observable P (snd (upload pdf_path response w)).
Proof.
  intros H.
  destruct (fs w !! pdf_path) as [content|] eqn:X.
  2:{ rewrite upload_missing by exact X. exact H. }
  destruct (endswith (lower pdf_path) ".pdf") eqn:E.
  2:{ rewrite (upload_not_pdf _ _ _ _ _ content) by assumption. exact H. }
  destruct (List.find (fun d => String.eqb (PDFDocument.filename d) (basename pdf_path))
              (db w)) as [doc|] eqn:F.
  - destruct (confirms response) eqn:C.
    2:{ rewrite (upload_cancelled _ _ _ _ _ content doc) by assumption. exact H. }
    destruct (String.eqb pdf_path (path_join uploads_dir (basename pdf_path))) eqn:S.
    + apply String.eqb_eq in S.
      rewrite (upload_same_file _ _ _ _ _ content (Some doc)) by assumption.
      apply observable_say. now apply observable_resolved.
    + apply String.eqb_neq in S.
      rewrite (upload_engine _ _ _ _ _ content (Some doc)) by assumption.
      apply observable_conclude. apply engine_ok. now apply observable_staged.
  - destruct (String.eqb pdf_path (path_join uploads_dir (basename pdf_path))) eqn:S.
    + apply String.eqb_eq in S.
      rewrite (upload_same_file _ _ _ _ _ content None) by (assumption || reflexivity).
      apply observable_say. now apply observable_resolved.
    + apply String.eqb_neq in S.
      rewrite (upload_engine _ _ _ _ _ content None) by (assumption || reflexivity).
      apply observable_conclude. apply engine_ok. now apply observable_staged.
Qed.

End UploadKeeps.

(** *** The ingestion contract *)

Section UploadTheorems.
Import Uploader Trace Invariant Spec.
Variables uploads_dir now : string.
Variable process_pdf : Z -> string -> string -> @SE World unit.

Local Abbreviation upload := (upload_and_process_pdf uploads_dir now process_pdf).
Local Abbreviation named f := (fun d => String.eqb (PDFDocument.filename d) f).

(** C3.  An upload of a file whose name already has a record, answered
    with anything but [y] at the prompt, is cancelled: the call returns
    [False] after the already-exists warning and the cancellation line,
    and the table, the committed snapshots and the file system are what
    they were. *)
Theorem unconfirmed_duplicate_untouched pdf_path response content doc w :
  fs w !! pdf_path = Some content ->
  endswith (lower pdf_path) ".pdf" = true ->
  List.find (named (basename pdf_path)) (db w) = Some doc ->
  confirms response = false ->
  exists w',
    upload pdf_path response w = (Ok false, w') /\
    db w' = db w /\ fs w' = fs w /\ commits w' = commits w /\
    out w' =
      app (out w)
        [ "📁 Processing PDF: " ++ basename pdf_path;
          "📊 File size: " ++ format_thousands (Z.of_nat (String.length content)) ++ " bytes";
          "⚠️  Warning: Document '" ++ basename pdf_path ++ "' already exists in database";
          "Do you want to reprocess it? (y/N): ";
          "❌ Upload cancelled" ].
Proof.
  intros X E F C. eexists. split; [now apply (upload_cancelled _ _ _ _ _ content doc)|].
  repeat split. cbn [say announced out]. unfold list_append.
  now rewrite <- !app_assoc.
Qed.

(** C2, as the code has it.  When the name already has a record (the only
    one of that name), the user answers [y] and the source is not the
    managed copy itself, the old record is deleted and that deletion
    committed before anything else changes; the source is then copied
    over [uploads_dir/<filename>], every other path keeping what it held
    (no file is removed); the new record is created and committed, and
    the engine is invoked on a table with exactly one record of that
    name, the new one, with [processing = true] and [processed = false]. *)
Theorem confirmed_replacement pdf_path response content doc w :
  fs w !! pdf_path = Some content ->
  endswith (lower pdf_path) ".pdf" = true ->
  List.find (named (basename pdf_path)) (db w) = Some doc ->
  confirms response = true ->
  pdf_path <> path_join uploads_dir (basename pdf_path) ->
  unique_filenames (db w) ->
  let filename := basename pdf_path in
  let dest_path := path_join uploads_dir filename in
  let remaining :=
    List.filter (fun d => negb (PDFDocument.id d =? PDFDocument.id doc)) (db w) in
  let row := new_row now filename dest_path (Z.of_nat (String.length content)) remaining in
  let w3 := staged uploads_dir now pdf_path content (Some doc) w in
  upload pdf_path response w =
    conclude filename (process_pdf (PDFDocument.id row) dest_path filename w3) /\
  commits w3 = (commits w ++ [remaining; (remaining ++ [row])%list])%list /\
  db w3 = (remaining ++ [row])%list /\
  List.filter (named filename) remaining = [] /\
  List.filter (named filename) (db w3) = [row] /\
  PDFDocument.processing row = true /\
  PDFDocument.processed row = false /\
  fs w3 !! dest_path = Some content /\
  (forall p, p <> dest_path -> fs w3 !! p = fs w !! p).
Proof.
  intros X E F C S N filename dest_path remaining row w3.
  assert (Z : List.filter (named filename) remaining = []).
  { apply filter_none. intros d I. apply String.eqb_neq.
    now apply (name_free_after_delete (db w) filename doc). }
  split; [now apply (upload_engine _ _ _ _ _ content (Some doc))|].
  split.
  { unfold w3. rewrite commits_staged, db_staged.
    cbn [resolved say after_delete announced commits db].
    unfold list_append. now rewrite <- app_assoc. }
  split; [reflexivity|].
  split; [exact Z|].
  split.
  { change (db w3) with (remaining ++ [row])%list.
    rewrite List.filter_app, Z. cbn [List.filter app new_row PDFDocument.filename row].
    unfold row, new_row. cbn [PDFDocument.filename].
    now rewrite String.eqb_refl. }
  split; [reflexivity|]. split; [reflexivity|].
  unfold w3. rewrite fs_staged. split.
  - apply lookup_insert_eq.
  - intros p Hp. now apply lookup_insert_ne.
Qed.

(** C1, as the code has it.  When the engine raises, the uploader returns
    [False] and leaves the table, the snapshots and the files exactly as
    the engine left them: it marks nothing itself.  [list_documents] then
    shows a record as failed exactly when the engine left it with both
    flags false; a record still carrying [processing = true] is shown as
    processing. *)
Theorem engine_failure_left_as_found pdf_path response content existing_doc w e w4 :
  fs w !! pdf_path = Some content ->
  endswith (lower pdf_path) ".pdf" = true ->
  List.find (named (basename pdf_path)) (db w) = existing_doc ->
  goes_ahead existing_doc response = true ->
  pdf_path <> path_join uploads_dir (basename pdf_path) ->
  process_pdf
    (next_id (db (resolved pdf_path content existing_doc w)))
    (path_join uploads_dir (basename pdf_path)) (basename pdf_path)
    (staged uploads_dir now pdf_path content existing_doc w) = (Raise e, w4) ->
  exists w',
    upload pdf_path response w = (Ok false, w') /\
    db w' = db w4 /\ fs w' = fs w4 /\ commits w' = commits w4 /\
    out w' = app (out w4) [ "❌ Error during processing: " ++ exn_str e;
                            "❌ PDF processing failed!" ] /\
    forall d search arguments log,
      In d (db w') ->
      McpServer.handle_call_tool search (db w') "list_documents" arguments log =
        (Ok (McpServer.text_content (listing (db w'))), log) /\
      (derived_status d = Failed <->
       PDFDocument.processing d = false /\ PDFDocument.processed d = false) /\
      (PDFDocument.processing d = true -> PDFDocument.processed d = false ->
       derived_status d = InProgress).
Proof.
  intros X E F G S R. eexists. split.
  { rewrite (upload_engine _ _ _ _ _ content existing_doc) by assumption.
    rewrite R. reflexivity. }
  cbn [say db fs commits out].
  split; [reflexivity|]. split; [reflexivity|]. split; [reflexivity|].
  split; [unfold list_append; now rewrite <- app_assoc|].
  intros d search arguments log I. split.
  { apply list_documents_text. intros Z. rewrite Z in I. inversion I. }
  unfold derived_status.
  destruct (PDFDocument.processed d), (PDFDocument.processing d);
    (split; [split; [intros; try discriminate; split; reflexivity
                    | intros [? ?]; congruence]
            | intros; congruence]).
Qed.

(** C8, as the code has it.  If the table and every committed snapshot
    hold at most one record per filename, and the engine keeps it so, then
    so do the table and every snapshot after an upload, whatever its path,
    answer and outcome.  The check, the deletion and the creation are
    separate steps, each committed on its own, not a unit: on a name that
    has a record, the upload either stops without touching the table, or
    (from a source that is not the managed copy itself) first deletes
    that record and commits a table with no record of that name, and
    only then creates the new record and commits again, before the engine
    is invoked. *)
Theorem one_record_per_filename pdf_path response w :
  engine_keeps unique_filenames process_pdf ->
  observable unique_filenames w ->
  observable unique_filenames (snd (upload pdf_path response w)) /\
  (forall content doc,
     fs w !! pdf_path = Some content ->
     endswith (lower pdf_path) ".pdf" = true ->
     List.find (named (basename pdf_path)) (db w) = Some doc ->
     (confirms response = false ->
      db (snd (upload pdf_path response w)) = db w /\
      commits (snd (upload pdf_path response w)) = commits w) /\
     (confirms response = true ->
      pdf_path <> path_join uploads_dir (basename pdf_path) ->
      let filename := basename pdf_path in
      let dest_path := path_join uploads_dir filename in
      let remaining :=
        List.filter (fun d => negb (PDFDocument.id d =? PDFDocument.id doc)) (db w) in
      let row :=
        new_row now filename dest_path (Z.of_nat (String.length content)) remaining in
      let w3 := staged uploads_dir now pdf_path content (Some doc) w in
      upload pdf_path response w =
        conclude filename (process_pdf (PDFDocument.id row) dest_path filename w3) /\
      commits w3 = app (commits w) [remaining; app remaining [row]] /\
      db w3 = app remaining [row] /\
      (forall d, In d remaining -> PDFDocument.filename d <> filename) /\
      PDFDocument.filename row = filename)).
Proof.
  intros K H. split.
  - apply upload_keeps; try assumption.
    + intros t doc. apply unique_filenames_filter.
    + intros t existing_doc row Ht F _ _. apply unique_filenames_snoc.
      * destruct existing_doc; [now apply unique_filenames_filter | exact Ht].
      * destruct existing_doc as [doc|].
        -- now apply (name_free_after_delete t _ doc).
        -- now apply name_free_when_absent.
  - intros content doc X E F. split.
    + intros C. rewrite (upload_cancelled _ _ _ _ _ content doc) by assumption.
      split; reflexivity.
    + intros C S filename dest_path remaining row w3.
      split; [now apply (upload_engine _ _ _ _ _ content (Some doc))|].
      split.
      { unfold w3. rewrite commits_staged, db_staged.
        cbn [resolved say after_delete announced commits db].
        unfold list_append. now rewrite <- app_assoc. }
      split; [reflexivity|]. split; [|reflexivity].
      destruct H as [Hd _]. intros d I.
      now apply (name_free_after_delete (db w) filename doc).
Qed.

(** C9.  If no record of the table or of any committed snapshot is both
    in progress and processed, and the engine keeps it so, then the same
    holds after an upload, whatever its path, answer and outcome.  The
    record an upload creates, as the engine first sees it, has
    [processing = true] and [processed = false]. *)
Theorem flags_never_both pdf_path response w :
  engine_keeps flags_exclusive process_pdf ->
  observable flags_exclusive w ->
  observable flags_exclusive (snd (upload pdf_path response w)) /\
  (forall content existing_doc,
     fs w !! pdf_path = Some content ->
     endswith (lower pdf_path) ".pdf" = true ->
     List.find (named (basename pdf_path)) (db w) = existing_doc ->
     goes_ahead existing_doc response = true ->
     pdf_path <> path_join uploads_dir (basename pdf_path) ->
     exists row,
       upload pdf_path response w =
         conclude (basename pdf_path)
           (process_pdf (PDFDocument.id row)
              (path_join uploads_dir (basename pdf_path)) (basename pdf_path)
              (staged uploads_dir now pdf_path content existing_doc w)) /\
       db (staged uploads_dir now pdf_path content existing_doc w) =
         list_append (db (resolved pdf_path content existing_doc w)) row /\
       PDFDocument.filename row = basename pdf_path /\
       PDFDocument.processing row = true /\
       PDFDocument.processed row = false).
Proof.
  intros K H. split.
  - apply upload_keeps; try assumption.
    + intros t doc. apply flags_exclusive_filter.
    + intros t existing_doc row Ht _ _ Hp. apply flags_exclusive_snoc; [|exact Hp].
      destruct existing_doc; [now apply flags_exclusive_filter | exact Ht].
  - intros content existing_doc X E F G S.
    exists (new_row now (basename pdf_path) (path_join uploads_dir (basename pdf_path))
              (Z.of_nat (String.length content))
              (db (resolved pdf_path content existing_doc w))).
    split; [now apply (upload_engine _ _ _ _ _ content existing_doc)|].
    split; [apply db_staged|]. repeat split.
Qed.

End UploadTheorems.

(** *** The scenarios, run *)

Section Runs.
Import Uploader Trace Invariant Spec Scenario.

(** C1 as stated fails.  The engine raises on [bad.pdf] (its message is
    printed) without having touched the store; the only record is left
    with [processing = true], and [list_documents] shows it with the
    hourglass and the word processing, not as failed. *)
Lemma engine_failure_stays_processing :
  fst bad_run = Ok false /\
  out (snd bad_run) =
    [ "📁 Processing PDF: bad.pdf";
      "📊 File size: 12 bytes";
      "📋 Copied file to: /srv/app/backend/uploads/bad.pdf";
      "💾 Created database record with ID: 1";
      "🔄 Starting PDF processing...";
      "❌ Error during processing: boom";
      "❌ PDF processing failed!" ] /\
  db (snd bad_run) =
    [ PDFDocument.mk 1 "bad.pdf" "/srv/app/backend/uploads/bad.pdf" 12 clock
        None None true false ] /\
  McpServer.handle_call_tool no_passages (db (snd bad_run)) "list_documents" ∅ [] =
    (Ok (McpServer.text_content
           ("Available documents in the knowledge base:" ++ NL ++ NL ++
            "⏳ bad.pdf" ++ NL ++
            "   Status: processing" ++ NL ++
            "   Upload Date: 2024-05-01 10:00:00" ++ NL ++
            "   File Size: 12 bytes" ++ NL ++ NL)), []) /\
  ~ (forall d, In d (db (snd bad_run)) ->
       PDFDocument.processing d = false /\ PDFDocument.processed d = false /\
       derived_status d = Failed).
Proof.
  split; [vm_compute; reflexivity|].
  split; [vm_compute; reflexivity|].
  split; [vm_compute; reflexivity|].
  split; [vm_compute; reflexivity|].
  intros H.
  destruct (H (PDFDocument.mk 1 "bad.pdf" "/srv/app/backend/uploads/bad.pdf" 12 clock
                 None None true false)) as [A _].
  - vm_compute. left. reflexivity.
  - discriminate A.
Qed.

(** C2 as stated fails.  The user confirms the replacement of
    [report.pdf]; the upload succeeds and the old record (id 1) is gone
    from the table, but its backing file is still where it was, with the
    content it had. *)
Lemma replacement_keeps_old_file :
  In report_row (db library_world) /\
  fs library_world !! PDFDocument.file_path report_row = Some "%PDF-1.4 old" /\
  fst replace_run = Ok true /\
  db (snd replace_run) =
    [ notes_row;
      PDFDocument.mk 3 "report.pdf" "/srv/app/backend/uploads/report.pdf" 19 clock
        None None true false ] /\
  fs (snd replace_run) !! PDFDocument.file_path report_row = Some "%PDF-1.4 old" /\
  ~ (~ In report_row (db (snd replace_run)) /\
     fs (snd replace_run) !! PDFDocument.file_path report_row = None).
Proof.
  split; [left; reflexivity|].
  split; [vm_compute; reflexivity|].
  split; [vm_compute; reflexivity|].
  split; [vm_compute; reflexivity|].
  split; [vm_compute; reflexivity|].
  intros [_ H]. vm_compute in H. discriminate H.
Qed.

(** The other way a confirmed replacement goes: when the source is the
    managed copy itself the copy is refused after the deletion was
    committed, and the upload ends with the old record gone, the file in
    place and no new record. *)
Lemma replacement_from_managed_copy :
  fst same_file_run = Ok false /\
  db (snd same_file_run) = [report_row] /\
  commits (snd same_file_run) = [[report_row]] /\
  fs (snd same_file_run) = fs library_world.
Proof. repeat split; vm_compute; reflexivity. Qed.

End Runs.

(** *** The theorems at work on the scenarios *)

Section Witnesses.
Import Uploader Trace Invariant Spec Scenario McpServer.

Lemma idle_engine_keeps (P : Table -> Prop) : engine_keeps P idle_engine.
Proof. intros pdf_id pdf_path filename w H. exact H. Defined.

Lemma library_world_unique : observable unique_filenames library_world.
Proof.
  split; [|constructor].
  unfold unique_filenames. cbn [library_world db List.map].
  constructor; [|constructor; [|constructor]].
  - intros [H|[]]. discriminate H.
  - intros [].
Defined.

Lemma library_world_exclusive : observable flags_exclusive library_world.
Proof.
  split; [|constructor].
  unfold flags_exclusive. cbn [library_world db].
  constructor; [reflexivity|]. constructor; [reflexivity|]. constructor.
Defined.

Lemma engine_failure_left_as_found_witness :
  fs fresh_world !! "/home/u/bad.pdf" = Some "%PDF-1.4 bad" /\
  endswith (lower "/home/u/bad.pdf") ".pdf" = true /\
  goes_ahead None EmptyString = true /\
  "/home/u/bad.pdf" <> path_join uploads (basename "/home/u/bad.pdf") /\
  exists w',
    bad_run = (Ok false, w') /\
    db w' = db (staged uploads clock "/home/u/bad.pdf" "%PDF-1.4 bad" None fresh_world) /\
    fs w' = fs (staged uploads clock "/home/u/bad.pdf" "%PDF-1.4 bad" None fresh_world).
Proof.
  assert (X : fs fresh_world !! "/home/u/bad.pdf" = Some "%PDF-1.4 bad")
    by (vm_compute; reflexivity).
  assert (E : endswith (lower "/home/u/bad.pdf") ".pdf" = true)
    by (vm_compute; reflexivity).
  assert (S : "/home/u/bad.pdf" <> path_join uploads (basename "/home/u/bad.pdf"))
    by (apply String.eqb_neq; vm_compute; reflexivity).
  repeat (split; [assumption || reflexivity|]).
  destruct (engine_failure_left_as_found uploads clock failing_engine
              "/home/u/bad.pdf" EmptyString "%PDF-1.4 bad" None fresh_world
              (mkExn "RuntimeError" "boom")
              (staged uploads clock "/home/u/bad.pdf" "%PDF-1.4 bad" None fresh_world)
              X E eq_refl eq_refl S eq_refl)
    as (w' & R & D & Fs & _).
  exists w'. auto.
Defined.

Lemma confirmed_replacement_witness :
  fs library_world !! "/home/u/report.pdf" = Some "%PDF-1.4 new report" /\
  endswith (lower "/home/u/report.pdf") ".pdf" = true /\
  confirms "y" = true /\
  "/home/u/report.pdf" <> path_join uploads (basename "/home/u/report.pdf") /\
  unique_filenames (db library_world) /\
  List.filter (fun d => String.eqb (PDFDocument.filename d) "report.pdf")
    (db (staged uploads clock "/home/u/report.pdf" "%PDF-1.4 new report"
           (Some report_row) library_world)) =
    [ new_row clock "report.pdf" "/srv/app/backend/uploads/report.pdf" 19 [notes_row] ].
Proof.
  assert (X : fs library_world !! "/home/u/report.pdf" = Some "%PDF-1.4 new report")
    by (vm_compute; reflexivity).
  assert (E : endswith (lower "/home/u/report.pdf") ".pdf" = true)
    by (vm_compute; reflexivity).
  assert (S : "/home/u/report.pdf" <> path_join uploads (basename "/home/u/report.pdf"))
    by (apply String.eqb_neq; vm_compute; reflexivity).
  repeat (split; [assumption || reflexivity || exact (proj1 library_world_unique)|]).
  exact (proj1 (proj2 (proj2 (proj2 (proj2
    (confirmed_replacement uploads clock idle_engine
       "/home/u/report.pdf" "y" "%PDF-1.4 new report" report_row library_world
       X E eq_refl eq_refl S (proj1 library_world_unique))))))).
Defined.

Lemma unconfirmed_duplicate_untouched_witness :
  fs library_world !! "/home/u/report.pdf" = Some "%PDF-1.4 new report" /\
  endswith (lower "/home/u/report.pdf") ".pdf" = true /\
  confirms "n" = false /\
  exists w',
    upload_and_process_pdf uploads clock idle_engine
      "/home/u/report.pdf" "n" library_world = (Ok false, w') /\
    db w' = db library_world /\ fs w' = fs library_world /\
    commits w' = commits library_world.
Proof.
  assert (X : fs library_world !! "/home/u/report.pdf" = Some "%PDF-1.4 new report")
    by (vm_compute; reflexivity).
  assert (E : endswith (lower "/home/u/report.pdf") ".pdf" = true)
    by (vm_compute; reflexivity).
  repeat (split; [assumption || reflexivity|]).
  destruct (unconfirmed_duplicate_untouched uploads clock idle_engine
              "/home/u/report.pdf" "n" "%PDF-1.4 new report" report_row library_world
              X E eq_refl eq_refl)
    as (w' & R & D & Fs & C & _).
  exists w'. auto.
Defined.

Lemma tool_call_returns_text_witness :
  known_tool "drop_documents" = false /\
  fst (handle_call_tool broken_search [report_row] "drop_documents" ∅ []) =
    Ok [ {| type := "text"; text := "Unknown tool: drop_documents" |} ].
Proof.
  split; [reflexivity|].
  destruct (tool_call_returns_text broken_search [report_row] "drop_documents" ∅ [])
    as (t & E & U).
  rewrite E, (U eq_refl). reflexivity.
Defined.

Lemma empty_query_rejected_witness :
  (∅ : gmap string pyval) !! "query" = None /\
  handle_call_tool broken_search [report_row] "search_documents" ∅ [] =
    (Ok [ {| type := "text"; text := "Error: Query is required" |} ], []).
Proof.
  split; [reflexivity|].
  apply (empty_query_rejected broken_search [report_row] ∅ []).
  left. reflexivity.
Defined.


Lemma one_record_per_filename_witness :
  engine_keeps unique_filenames idle_engine /\
  observable unique_filenames library_world /\
  observable unique_filenames (snd replace_run).
Proof.
  split; [apply idle_engine_keeps|]. split; [apply library_world_unique|].
  exact (proj1 (one_record_per_filename uploads clock idle_engine
                  "/home/u/report.pdf" "y" library_world
                  (idle_engine_keeps unique_filenames) library_world_unique)).
Defined.

Lemma flags_never_both_witness :
  engine_keeps flags_exclusive idle_engine /\
  observable flags_exclusive library_world /\
  observable flags_exclusive (snd replace_run).
Proof.
  split; [apply idle_engine_keeps|]. split; [apply library_world_exclusive|].
  exact (proj1 (flags_never_both uploads clock idle_engine
                  "/home/u/report.pdf" "y" library_world
                  (idle_engine_keeps flags_exclusive) library_world_exclusive)).
Defined.

End Witnesses.

(** ** Further properties of the code *)

(** *** Prefixes, suffixes and letter case *)

Section TextFacts.

Lemma startswith_iff (s p : string) :
  startswith s p = true <-> exists rest, s = p ++ rest.
Proof.
  revert s. induction p as [|c p IH]; intros s.
  - split; [intros _; exists s; reflexivity | reflexivity].
  - destruct s as [|d s]; cbn [startswith].
    + split; [discriminate | intros [rest H]; discriminate H].
    + rewrite andb_true_iff, IH. split.
      * intros [E [rest ->]]. apply Ascii.eqb_eq in E. subst. now exists rest.
      * intros [rest H]. rewrite string_app_cons in H. injection H as -> ->.
        split; [apply Ascii.eqb_refl | now exists rest].
Qed.

Lemma rev_app_spec (a b : string) : String.rev_app a b = String.rev a ++ b.
Proof.
  unfold String.rev. revert b. induction a as [|c a IH]; intros b; [reflexivity|].
  cbn [String.rev_app]. rewrite (IH (String c b)), (IH (String c EmptyString)).
  now rewrite string_app_assoc.
Qed.

Lemma rev_append (a b : string) : String.rev (a ++ b) = String.rev b ++ String.rev a.
Proof.
  induction a as [|c a IH].
  - change (EmptyString ++ b) with b. now rewrite string_app_nil_r.
  - rewrite string_app_cons. unfold String.rev at 1 3. cbn [String.rev_app].
    rewrite !rev_app_spec, IH. now rewrite string_app_assoc.
Qed.

Lemma rev_involutive (a : string) : String.rev (String.rev a) = a.
Proof.
  induction a as [|c a IH]; [reflexivity|].
  unfold String.rev at 2. cbn [String.rev_app]. rewrite rev_app_spec, rev_append, IH.
  reflexivity.
Qed.

Lemma endswith_iff (s p : string) :
  endswith s p = true <-> exists stem, s = stem ++ p.
Proof.
  unfold endswith. rewrite startswith_iff. split.
  - intros [rest H]. exists (String.rev rest).
    rewrite <- (rev_involutive s), H, rev_append, rev_involutive. reflexivity.
  - intros [stem ->]. exists (String.rev stem). apply rev_append.
Qed.

Lemma lower_app (a b : string) : lower (a ++ b) = lower a ++ lower b.
Proof.
  induction a as [|c a IH]; [reflexivity|].
  rewrite string_app_cons. cbn [lower]. now rewrite IH.
Qed.

Lemma lower_app_inv (p a b : string) :
  lower p = a ++ b -> exists p1 p2, p = p1 ++ p2 /\ lower p1 = a /\ lower p2 = b.
Proof.
  revert p. induction a as [|c a IH]; intros p H.
  - exists EmptyString, p. auto.
  - destruct p as [|d p]; [discriminate H|].
    cbn [lower] in H. rewrite string_app_cons in H. injection H as Hc Hp.
    destruct (IH p Hp) as (p1 & p2 & -> & L1 & L2).
    exists (String d p1), p2. cbn [lower]. rewrite Hc, L1. auto.
Qed.

Lemma lower_ascii_y (c : ascii) :
  lower_ascii c = "y"%char -> c = "y"%char \/ c = "Y"%char.
Proof.
  destruct c as [[] [] [] [] [] [] [] []]; vm_compute; intros H;
    try discriminate H; auto.
Qed.

End TextFacts.

(** *** Every run of an upload has one of five shapes *)

Section UploadShape.
Import Uploader Trace Shape.
Variables uploads_dir now : string.
Variable process_pdf : Z -> string -> string -> @SE World unit.

Lemma upload_run pdf_path response w :
  Run uploads_dir now process_pdf pdf_path response w
    (upload_and_process_pdf uploads_dir now process_pdf pdf_path response w).
Proof.
  destruct (fs w !! pdf_path) as [content|] eqn:X.
  2:{ rewrite upload_missing by exact X. now constructor. }
  destruct (endswith (lower pdf_path) ".pdf") eqn:E.
  2:{ rewrite (upload_not_pdf _ _ _ _ _ content) by assumption.
      now apply (Run_not_pdf _ _ _ _ _ _ content). }
  destruct (List.find (fun d => String.eqb (PDFDocument.filename d) (basename pdf_path))
              (db w)) as [doc|] eqn:F.
  - destruct (confirms response) eqn:C.
    2:{ rewrite (upload_cancelled _ _ _ _ _ content doc) by assumption.
        now apply (Run_cancelled _ _ _ _ _ _ content doc). }
    destruct (String.eqb pdf_path (path_join uploads_dir (basename pdf_path))) eqn:S.
    + apply String.eqb_eq in S.
      rewrite (upload_same_file _ _ _ _ _ content (Some doc)) by assumption.
      now apply Run_same_file.
    + apply String.eqb_neq in S.
      rewrite (upload_engine _ _ _ _ _ content (Some doc)) by assumption.
      now apply Run_engine.
  - destruct (String.eqb pdf_path (path_join uploads_dir (basename pdf_path))) eqn:S.
    + apply String.eqb_eq in S.
      rewrite (upload_same_file _ _ _ _ _ content None) by (assumption || reflexivity).
      now apply Run_same_file.
    + apply String.eqb_neq in S.
      rewrite (upload_engine _ _ _ _ _ content None) by (assumption || reflexivity).
      now apply Run_engine.
Qed.

End UploadShape.

(** *** More on the uploader *)

Section UploadExtras.
Import Uploader Trace Shape.
Variables uploads_dir now : string.
Variable process_pdf : Z -> string -> string -> @SE World unit.

Local Abbreviation upload := (upload_and_process_pdf uploads_dir now process_pdf).
Local Abbreviation named f := (fun d => String.eqb (PDFDocument.filename d) f).

Ltac by_shape R Hr :=
  match goal with
  | |- context [upload_and_process_pdf uploads_dir now process_pdf ?p ?r ?w] =>
      pose proof (upload_run uploads_dir now process_pdf p r w) as R;
      remember (upload_and_process_pdf uploads_dir now process_pdf p r w) as run eqn:Hr;
      destruct R
  end.

(** X1.  [upload_and_process_pdf] returns [True] only through the
    engine: if it returned [True], then the file existed, had the
    extension, the conflict block let it through, the source was not the
    managed copy itself, and the engine, invoked on the staged world with
    the id of the new record, returned normally; the table, the snapshots
    and the files are then those the engine left. *)
Theorem upload_true_only_through_engine pdf_path response w :
  fst (upload pdf_path response w) = Ok true ->
  exists content w4,
    fs w !! pdf_path = Some content /\
    endswith (lower pdf_path) ".pdf" = true /\
    goes_ahead (List.find (named (basename pdf_path)) (db w)) response = true /\
    pdf_path <> path_join uploads_dir (basename pdf_path) /\
    process_pdf
      (next_id (db (resolved pdf_path content
                      (List.find (named (basename pdf_path)) (db w)) w)))
      (path_join uploads_dir (basename pdf_path)) (basename pdf_path)
      (staged uploads_dir now pdf_path content
         (List.find (named (basename pdf_path)) (db w)) w) = (Ok tt, w4) /\
    db (snd (upload pdf_path response w)) = db w4 /\
    fs (snd (upload pdf_path response w)) = fs w4 /\
    commits (snd (upload pdf_path response w)) = commits w4.
Proof.
  by_shape R Hr; try discriminate. subst existing_doc.
  destruct (process_pdf _ _ _ _) as [[[]|e] w4] eqn:P; [|discriminate].
  intros _. exists content, w4. repeat split; auto.
Qed.

(** X2.  A path that names no file, or whose name does not end in [.pdf],
    is refused before anything is touched: the call returns [False],
    prints the one diagnostic, and the table, the snapshots and the file
    system are what they were. *)
Theorem validation_failure_touches_nothing pdf_path response w :
  fs w !! pdf_path = None \/ endswith (lower pdf_path) ".pdf" = false ->
  exists w' line,
    upload pdf_path response w = (Ok false, w') /\
    db w' = db w /\ fs w' = fs w /\ commits w' = commits w /\
    out w' = app (out w) [line] /\
    (line = "❌ Error: File not found: " ++ pdf_path \/
     line = "❌ Error: File must be a PDF: " ++ pdf_path).
Proof.
  intros H. destruct (fs w !! pdf_path) as [content|] eqn:X.
  - destruct H as [H|H]; [discriminate H|].
    rewrite (upload_not_pdf _ _ _ _ _ content w X H).
    eexists. eexists. repeat split. now right.
  - rewrite (upload_missing _ _ _ _ _ w X).
    eexists. eexists. repeat split. now left.
Qed.

Lemma lower_ascii_dot (c : ascii) : lower_ascii c = "."%char -> c = "."%char.
Proof.
  destruct c as [[] [] [] [] [] [] [] []]; vm_compute; intros H;
    try discriminate H; auto.
Qed.

Lemma lower_ascii_p (c : ascii) :
  lower_ascii c = "p"%char -> c = "p"%char \/ c = "P"%char.
Proof.
  destruct c as [[] [] [] [] [] [] [] []]; vm_compute; intros H;
    try discriminate H; auto.
Qed.

Lemma lower_ascii_d (c : ascii) :
  lower_ascii c = "d"%char -> c = "d"%char \/ c = "D"%char.
Proof.
  destruct c as [[] [] [] [] [] [] [] []]; vm_compute; intros H;
    try discriminate H; auto.
Qed.

Lemma lower_ascii_f (c : ascii) :
  lower_ascii c = "f"%char -> c = "f"%char \/ c = "F"%char.
Proof.
  destruct c as [[] [] [] [] [] [] [] []]; vm_compute; intros H;
    try discriminate H; auto.
Qed.

Lemma pdf_spellings (pdf_path : string) :
  endswith (lower pdf_path) ".pdf" = true <->
  exists stem x y z,
    pdf_path = stem ++ String "." (String x (String y (String z EmptyString))) /\
    (x = "p" \/ x = "P")%char /\ (y = "d" \/ y = "D")%char /\ (z = "f" \/ z = "F")%char.
Proof.
  rewrite endswith_iff. split.
  - intros [a H]. apply lower_app_inv in H as (stem & ext & -> & _ & L).
    destruct ext as [|c0 [|x [|y [|z [|? ?]]]]]; cbn [lower] in L; try discriminate L.
    injection L as L0 Lx Ly Lz.
    apply lower_ascii_dot in L0 as ->.
    exists stem, x, y, z. split; [reflexivity|].
    split; [now apply lower_ascii_p|]. split; [now apply lower_ascii_d|].
    now apply lower_ascii_f.
  - intros (stem & x & y & z & -> & Hx & Hy & Hz). exists (lower stem).
    rewrite lower_app. f_equal.
    destruct Hx as [-> | ->], Hy as [-> | ->], Hz as [-> | ->]; reflexivity.
Qed.

Ltac last_lines_differ H :=
  apply (f_equal (fun r : Res bool * World => out (snd r))) in H;
  cbn [snd out say] in H; unfold list_append in H;
  apply app_inj_tail in H as [_ H];
  cbv [append] in H; discriminate H.

(** X3.  A path that names a file is refused with [File must be a PDF],
    and nothing else done, exactly when its last four characters are not
    [.pdf] in some mix of upper and lower case: [.pdf], [.PDF], [.Pdf]
    and the five other spellings pass the test, no other ending does. *)
Theorem extension_check_ignores_case pdf_path response content w :
  fs w !! pdf_path = Some content ->
  (upload pdf_path response w =
     (Ok false, say ("❌ Error: File must be a PDF: " ++ pdf_path) w) <->
   ~ exists stem x y z,
       pdf_path = stem ++ String "." (String x (String y (String z EmptyString))) /\
       (x = "p" \/ x = "P")%char /\ (y = "d" \/ y = "D")%char /\
       (z = "f" \/ z = "F")%char).
Proof.
  intros X. rewrite <- pdf_spellings. split.
  - intros Q E. revert Q.
    by_shape R Hr; try congruence; intros Q.
    + last_lines_differ Q.
    + last_lines_differ Q.
    + destruct (process_pdf _ _ _ _) as [[[]|e] w4]; cbn [conclude] in Q;
        [discriminate Q | last_lines_differ Q].
  - intros E. apply not_true_is_false in E.
    now apply (upload_not_pdf _ _ _ _ _ content).
Qed.

(** X4.  At the prompt, exactly the answers [y] and [Y] confirm the
    replacement; anything else, the empty answer included, cancels. *)
Theorem only_y_confirms (response : string) :
  confirms response = true <-> response = "y" \/ response = "Y".
Proof.
  unfold confirms. rewrite String.eqb_eq. split.
  - destruct response as [|c [|d r]]; cbn [lower]; intros H; try discriminate H.
    injection H as H. apply lower_ascii_y in H as [-> | ->]; auto.
  - intros [-> | ->]; reflexivity.
Qed.

(** X5.  When no record carries the name of the file, the answer is never
    consulted: the run is the same whatever the user would have typed. *)
Theorem fresh_upload_ignores_answer pdf_path response response' w :
  List.find (named (basename pdf_path)) (db w) = None ->
  upload pdf_path response w = upload pdf_path response' w.
Proof.
  intros F.
  destruct (fs w !! pdf_path) as [content|] eqn:X.
  2:{ now rewrite !upload_missing by exact X. }
  destruct (endswith (lower pdf_path) ".pdf") eqn:E.
  2:{ now rewrite !(upload_not_pdf _ _ _ _ _ content) by assumption. }
  destruct (String.eqb pdf_path (path_join uploads_dir (basename pdf_path))) eqn:S.
  - apply String.eqb_eq in S.
    now rewrite !(upload_same_file _ _ _ _ _ content None) by (assumption || reflexivity).
  - apply String.eqb_neq in S.
    now rewrite !(upload_engine _ _ _ _ _ content None) by (assumption || reflexivity).
Qed.

(** X6.  A first upload: when no record carries the name, the file is
    copied to [uploads_dir/<filename>], one record is appended to the
    table with that path, the size of the file in bytes,
    [processing = true] and [processed = false], that table is committed,
    and only then is the engine invoked, with the id of the new record;
    nothing was asked of the user.  What the call returns is what the
    engine's outcome makes it. *)
Theorem first_upload pdf_path response content w :
  fs w !! pdf_path = Some content ->
  endswith (lower pdf_path) ".pdf" = true ->
  List.find (named (basename pdf_path)) (db w) = None ->
  pdf_path <> path_join uploads_dir (basename pdf_path) ->
  let filename := basename pdf_path in
  let dest_path := path_join uploads_dir filename in
  let row := new_row now filename dest_path (Z.of_nat (String.length content)) (db w) in
  let w3 := staged uploads_dir now pdf_path content None w in
  upload pdf_path response w =
    conclude filename (process_pdf (PDFDocument.id row) dest_path filename w3) /\
  db w3 = app (db w) [row] /\
  commits w3 = app (commits w) [app (db w) [row]] /\
  fs w3 = <[dest_path := content]> (fs w) /\
  out w3 =
    app (out w)
      [ "📁 Processing PDF: " ++ filename;
        "📊 File size: " ++ format_thousands (Z.of_nat (String.length content)) ++ " bytes";
        "📋 Copied file to: " ++ dest_path;
        "💾 Created database record with ID: " ++ str_int (PDFDocument.id row);
        "🔄 Starting PDF processing..." ] /\
  PDFDocument.file_path row = dest_path /\
  PDFDocument.file_size row = Z.of_nat (String.length content) /\
  PDFDocument.processing row = true /\
  PDFDocument.processed row = false.
Proof.
  intros X E F S filename dest_path row w3.
  split; [now apply (upload_engine _ _ _ _ _ content None)|].
  split; [reflexivity|]. split; [reflexivity|]. split; [reflexivity|].
  split; [|repeat split].
  unfold w3. cbn [staged resolved announced say after_copy after_create out].
  unfold list_append. now rewrite <- !app_assoc.
Qed.

(** X7.  Uploading the managed copy itself (the source path is
    [uploads_dir/<filename>]) always fails: the copy is refused, no record
    is created and the file system is unchanged.  If a record of that
    name existed and the user confirmed, that record has been deleted all
    the same, and the deletion committed. *)
Theorem managed_copy_upload_fails pdf_path response content w :
  fs w !! pdf_path = Some content ->
  endswith (lower pdf_path) ".pdf" = true ->
  goes_ahead (List.find (named (basename pdf_path)) (db w)) response = true ->
  pdf_path = path_join uploads_dir (basename pdf_path) ->
  exists w',
    upload pdf_path response w = (Ok false, w') /\
    fs w' = fs w /\
    match List.find (named (basename pdf_path)) (db w) with
    | None => db w' = db w /\ commits w' = commits w
    | Some doc =>
        db w' = List.filter (fun d => negb (PDFDocument.id d =? PDFDocument.id doc)) (db w) /\
        commits w' = app (commits w) [db w']
    end.
Proof.
  intros X E G S.
  rewrite (upload_same_file _ _ _ _ _ content _ w X E eq_refl G S).
  eexists. split; [reflexivity|].
  destruct (List.find _ (db w)) as [doc|]; repeat split.
Qed.

(** X8.  An upload writes to one path only.  Any other path that the
    engine leaves alone holds after the call what it held before: no
    file is removed, renamed or truncated by the uploader. *)
Theorem upload_writes_one_path pdf_path response w (q : string) :
  (forall pdf_id path filename w0,
     fs (snd (process_pdf pdf_id path filename w0)) !! q = fs w0 !! q) ->
  q <> path_join uploads_dir (basename pdf_path) ->
  fs (snd (upload pdf_path response w)) !! q = fs w !! q.
Proof.
  intros K Q. by_shape R Hr; try reflexivity.
  - destruct existing_doc; reflexivity.
  - match goal with |- context [process_pdf ?a ?b ?c ?d] =>
      pose proof (K a b c d) as Kq;
      destruct (process_pdf a b c d) as [[[]|e] w4] end;
      cbn [conclude snd say fs] in *; rewrite Kq, fs_staged;
      now apply lookup_insert_ne.
Qed.

(** X23.  An upload removes at most the one record it replaces.  Any
    other record of the table (any record whose id is not that of the
    record found under the uploaded name) that the engine keeps is still
    in the table after the call. *)
Theorem upload_keeps_other_records pdf_path response w (d : PDFDocument.t) :
  (forall pdf_id path filename w0,
     In d (db w0) -> In d (db (snd (process_pdf pdf_id path filename w0)))) ->
  In d (db w) ->
  (forall doc, List.find (named (basename pdf_path)) (db w) = Some doc ->
               PDFDocument.id d <> PDFDocument.id doc) ->
  In d (db (snd (upload pdf_path response w))).
Proof.
  intros K I N.
  assert (R0 : forall content existing_doc,
             List.find (named (basename pdf_path)) (db w) = existing_doc ->
             In d (db (resolved pdf_path content existing_doc w))).
  { intros content existing_doc F. destruct existing_doc as [doc|]; [|exact I].
    cbn [resolved say after_delete announced db]. apply filter_In. split; [exact I|].
    apply negb_true_iff. apply Z.eqb_neq. now apply N. }
  by_shape R Hr; try exact I.
  - now apply R0.
  - assert (S0 : In d (db (staged uploads_dir now pdf_path content existing_doc w))).
    { rewrite db_staged. unfold list_append. apply in_or_app. left. now apply R0. }
    match goal with |- context [process_pdf ?a ?b ?c ?d] =>
      pose proof (K a b c d S0) as Kd;
      destruct (process_pdf a b c d) as [[[]|e] w4] end;
      exact Kd.
Qed.

End UploadExtras.

(** *** Where the managed copy goes *)

Section PathFacts.

Lemma lower_ascii_sep (c : ascii) :
  Ascii.eqb (lower_ascii c) "/" = Ascii.eqb c "/".
Proof. destruct c as [[] [] [] [] [] [] [] []]; reflexivity. Qed.

Lemma has_sep_lower (s : string) : has_sep (lower s) = has_sep s.
Proof.
  induction s as [|c s IH]; [reflexivity|].
  cbn [lower has_sep]. now rewrite lower_ascii_sep, IH.
Qed.

Lemma has_sep_app (a b : string) : has_sep (a ++ b) = (has_sep a || has_sep b)%bool.
Proof.
  induction a as [|c a IH]; [reflexivity|].
  rewrite string_app_cons. cbn [has_sep]. rewrite IH. now rewrite orb_assoc.
Qed.

Lemma basename_no_sep (p : string) : has_sep (basename p) = false.
Proof.
  induction p as [|c p IH]; [reflexivity|].
  cbn [basename]. destruct (has_sep p) eqn:H; [exact IH|].
  destruct (Ascii.eqb c "/") eqn:C; [exact H|].
  cbn [has_sep]. now rewrite C, H.
Qed.

Lemma basename_keeps_suffix (stem ext : string) :
  has_sep ext = false -> exists stem', basename (stem ++ ext) = stem' ++ ext.
Proof.
  intros H. induction stem as [|c stem IH].
  - exists EmptyString. change (EmptyString ++ ext) with ext.
    destruct ext as [|d ext]; [reflexivity|].
    cbn [has_sep] in H. apply orb_false_iff in H as [Hd He].
    cbn [basename]. now rewrite He, Hd.
  - rewrite string_app_cons. cbn [basename].
    destruct (has_sep (stem ++ ext)); [exact IH|].
    destruct (Ascii.eqb c "/"); [now exists stem | now exists (String c stem)].
Qed.

(** X9.  For a path that passed the extension test, the filename under
    which the file is recorded and stored is not empty, contains no [/]
    and still ends in [.pdf] (in some letter case); the managed copy
    therefore lies directly in [uploads_dir], whatever directories the
    source path went through. *)
Theorem stored_directly_in_uploads_dir (uploads_dir pdf_path : string) :
  endswith (lower pdf_path) ".pdf" = true ->
  has_sep (basename pdf_path) = false /\
  endswith (lower (basename pdf_path)) ".pdf" = true /\
  basename pdf_path <> EmptyString /\
  path_join uploads_dir (basename pdf_path) =
    uploads_dir ++
    (if (String.eqb uploads_dir EmptyString || endswith uploads_dir "/")%bool
     then EmptyString else "/") ++
    basename pdf_path.
Proof.
  intros E. pose proof (basename_no_sep pdf_path) as N.
  apply endswith_iff in E as [a E].
  apply lower_app_inv in E as (stem & ext & P & _ & L).
  assert (Hext : has_sep ext = false) by (now rewrite <- has_sep_lower, L).
  destruct (basename_keeps_suffix stem ext Hext) as [stem' B].
  rewrite <- P in B.
  split; [exact N|]. split; [|split].
  - rewrite B, lower_app, L. apply endswith_iff. now exists (lower stem').
  - rewrite B. intros Z. apply (f_equal lower) in Z. rewrite lower_app, L in Z.
    destruct (lower stem'); discriminate Z.
  - unfold path_join.
    assert (S : startswith (basename pdf_path) "/" = false).
    { destruct (basename pdf_path) as [|c r]; [reflexivity|].
      cbn [has_sep] in N. apply orb_false_iff in N as [Nc _].
      cbn [startswith]. rewrite Ascii.eqb_sym, Nc. reflexivity. }
    rewrite S.
    destruct (String.eqb uploads_dir EmptyString || endswith uploads_dir "/")%bool;
      reflexivity.
Qed.

End PathFacts.

(** *** The command line *)

Section MainFacts.
Import Uploader Trace UploaderCli.
Variables uploads_dir now : string.
Variable process_pdf : Z -> string -> string -> @SE World unit.

(** X10.  Called with anything but exactly one argument, [main] prints
    the two usage lines and exits with status 1; the uploader is never
    run: table, snapshots and file system are what they were. *)
Theorem main_usage (argv : list string) (response : string) (w : World) :
  length argv <> 2%nat ->
  exists w',
    main uploads_dir now process_pdf argv response w = (1, w') /\
    db w' = db w /\ fs w' = fs w /\ commits w' = commits w /\
    out w' =
      app (out w)
        [ "Usage: python upload_pdf.py <path_to_pdf_file>";
          "Example: python upload_pdf.py " ++ DQ ++ "C:\Documents\my_book.pdf" ++ DQ ].
Proof.
  intros H. apply Nat.eqb_neq in H. unfold main. rewrite H. cbn [negb].
  eexists. split; [reflexivity|]. repeat split.
  cbn [out]. unfold list_append. now rewrite <- app_assoc.
Qed.

(** X11.  Called with one argument, [main] exits with status 0 exactly
    when [upload_and_process_pdf], run on that argument after the banner,
    returns [True], and with status 1 otherwise; the table, the snapshots
    and the files it leaves are those the upload left. *)
Theorem main_exit_status (prog pdf_path response : string) (w : World) :
  let banner :=
    say (str_repeat "=" 40) (say "🚀 PDF Upload and Processing Tool" w) in
  let run := upload_and_process_pdf uploads_dir now process_pdf pdf_path response banner in
  let exit := main uploads_dir now process_pdf [prog; pdf_path] response w in
  (fst exit = 0 <-> fst run = Ok true) /\
  (fst exit = 1 <-> fst run <> Ok true) /\
  db (snd exit) = db (snd run) /\
  fs (snd exit) = fs (snd run) /\
  commits (snd exit) = commits (snd run).
Proof.
  intros banner run exit.
  assert (M : exit =
    match run with
    | (Ok true, w') =>
        (0, say "- Cursor MCP integration"
              (say "- Claude Desktop MCP tools"
                 (say "- The web interface at http://localhost:8000"
                    (say "You can now search for content using:"
                       (say (NL ++ "🎉 Success! Your PDF has been uploaded and processed.")
                          w')))))
    | (Ok false, w') => (1, say (NL ++ "💥 Failed to upload and process PDF.") w')
    | (Raise _, w') => (1, w')
    end).
  { unfold exit, main, run, banner. cbn [length Nat.eqb negb nth].
    unfold bind at 1 2. unfold print at 1 2. unfold modify at 1 2.
    cbn [db fs out commits].
    change (upload_and_process_pdf uploads_dir now process_pdf pdf_path response
              (say (str_repeat "=" 40) (say "🚀 PDF Upload and Processing Tool" w)))
      with (upload_and_process_pdf uploads_dir now process_pdf pdf_path response
              {| db := db w; fs := fs w;
                 out := list_append
                          (list_append (out w) "🚀 PDF Upload and Processing Tool")
                          (str_repeat "=" 40);
                 commits := commits w |}).
    destruct (upload_and_process_pdf _ _ _ _ _ _) as [[[]|e] w']; reflexivity. }
  rewrite M. clear M exit. clearbody run.
  destruct run as [[[]|e] w']; cbn [fst snd say db fs commits];
    repeat split; intros; try congruence; try discriminate; try lia.
Qed.

End MainFacts.

(** *** More on the tool dispatcher *)

Section ToolExtras.
Import McpServer Spec SearchText.
Variable vector_store_search : pyval -> pyval -> Res (list SearchResult).

Local Abbreviation call_tool := (handle_call_tool vector_store_search).

Lemma format_results_blocks (results : list (gmap string pyval)) :
  forall i parts,
    Forall (fun r : gmap string pyval => r !! "content" <> None) results ->
    exists parts',
      format_results i results parts = Ok parts' /\
      join EmptyString parts' = join EmptyString parts ++ blocks i results.
Proof.
  induction results as [|r rest IH]; intros i parts H.
  - exists parts. split; [reflexivity|]. cbn [blocks]. now rewrite string_app_nil_r.
  - inversion H as [|? ? Hr Hrest]; subst.
    assert (C : exists content, r !! "content" = Some content).
    { destruct (r !! "content") as [content|]; [eauto | congruence]. }
    destruct C as [content C].
    cbn [format_results blocks]. unfold dict_index. rewrite C.
    replace (dict_get r "content" VNone) with content
      by (unfold dict_get; now rewrite C).
    destruct (IH (i + 1) (list_append parts (block i r content)) Hrest)
      as (parts' & E & J).
    exists parts'. split; [exact E|]. rewrite J.
    unfold list_append. rewrite join_empty_app, join_empty_cons. cbn [join].
    now rewrite string_app_nil_r, string_app_assoc.
Qed.

Lemma format_results_missing (results : list (gmap string pyval)) :
  forall i parts,
    Exists (fun r : gmap string pyval => r !! "content" = None) results ->
    format_results i results parts = Raise (KeyError "content").
Proof.
  induction results as [|r rest IH]; intros i parts H; [inversion H|].
  cbn [format_results]. unfold dict_index.
  destruct (r !! "content") as [content|] eqn:C; [|reflexivity].
  apply IH. inversion H as [? ? Hr|? ? Hrest]; subst; [congruence | exact Hrest].
Qed.

Lemma format_results_keeps_head (results : list (gmap string pyval)) :
  forall i head tail parts',
    format_results i results (head :: tail) = Ok parts' ->
    exists tail', parts' = head :: tail'.
Proof.
  induction results as [|r rest IH]; intros i head tail parts' H.
  - injection H as <-. eauto.
  - cbn [format_results] in H. destruct (dict_index r "content"); [|discriminate H].
    unfold list_append in H. cbn [app] in H. now apply IH in H.
Qed.

Ltac differ_at_first_char :=
  let H := fresh "H" in
  intros H; cbv [append ret fst text_content] in H; discriminate H.

(** X12.  The tools [list_tools] advertises are exactly the names
    [call_tool] dispatches: a call is answered with [Unknown tool: <name>]
    if and only if the name is not in the catalogue. *)
Theorem advertised_tools_are_dispatched (db : Table) (name : string)
    (arguments : gmap string pyval) (log : SearchLog) :
  In name (List.map McpTools.name McpTools.handle_list_tools) <->
  fst (call_tool db name arguments log) <> Ok (text_content ("Unknown tool: " ++ name)).
Proof.
  split.
  - cbn [McpTools.handle_list_tools List.map McpTools.name].
    intros [<- | [<- | [<- | []]]]; unfold handle_call_tool.
    + change (String.eqb "search_documents" "search_documents") with true. cbv iota.
      destruct (truthy (dict_get arguments "query" (VStr EmptyString))); cbn [negb].
      2:{ differ_at_first_char. }
      unfold try_except, bind, search, lift, ret.
      destruct (vector_store_search _ _) as [[|r rest]|e]; cbn [fst].
      * differ_at_first_char.
      * destruct (format_results _ _ _) as [parts'|e] eqn:F; cbn [fst].
        -- apply format_results_keeps_head in F as [tail' ->].
           rewrite join_empty_cons. differ_at_first_char.
        -- differ_at_first_char.
      * differ_at_first_char.
    + change (String.eqb "list_documents" "search_documents") with false.
      change (String.eqb "list_documents" "list_documents") with true. cbv iota.
      unfold try_except, ret. destruct db as [|d db]; cbn [fst].
      * differ_at_first_char.
      * rewrite fold_left_append, join_empty_app. cbn [join].
        differ_at_first_char.
    + change (String.eqb "get_document_info" "search_documents") with false.
      change (String.eqb "get_document_info" "list_documents") with false.
      change (String.eqb "get_document_info" "get_document_info") with true. cbv iota.
      destruct (truthy (dict_get arguments "filename" (VStr EmptyString))); cbn [negb].
      2:{ differ_at_first_char. }
      unfold try_except, bind, lift, ret.
      destruct (List.find _ db) as [d|]; cbn [fst].
      2:{ differ_at_first_char. }
      destruct (PDFDocument.processed d).
      * unfold gt_zero. destruct (PDFDocument.chunks_count d) as [n|]; cbn [fst].
        -- destruct (0 <? n), (PDFDocument.processing d); cbn [fst];
             differ_at_first_char.
        -- differ_at_first_char.
      * destruct (PDFDocument.processing d); cbn [fst];
          differ_at_first_char.
  - intros H. cbn [McpTools.handle_list_tools List.map McpTools.name].
    destruct (String.eqb name "search_documents") eqn:E1;
      [apply String.eqb_eq in E1; subst name; left; reflexivity|].
    destruct (String.eqb name "list_documents") eqn:E2;
      [apply String.eqb_eq in E2; subst name; right; left; reflexivity|].
    destruct (String.eqb name "get_document_info") eqn:E3;
      [apply String.eqb_eq in E3; subst name; right; right; left; reflexivity|].
    exfalso. apply H. unfold handle_call_tool. rewrite E1, E2, E3. reflexivity.
Qed.

(** X13.  What a schema of the catalogue declares as required, the
    handler enforces: for every advertised tool and every field its schema
    lists under [required], a call without that field is answered with an
    [Error: ... is required] text, and the search engine is not invoked. *)
Theorem required_arguments_enforced (db : Table) (tool : McpTools.Tool)
    (field : string) (arguments : gmap string pyval) (log : SearchLog) :
  In tool McpTools.handle_list_tools ->
  In field (McpTools.required_fields (McpTools.inputSchema tool)) ->
  arguments !! field = None ->
  exists what,
    call_tool db (McpTools.name tool) arguments log =
      (Ok (text_content ("Error: " ++ what ++ " is required")), log).
Proof.
  intros T R A. cbn [McpTools.handle_list_tools] in T.
  destruct T as [<- | [<- | [<- | []]]]; vm_compute in R;
    [destruct R as [<- | []] | contradiction | destruct R as [<- | []]];
    unfold handle_call_tool.
  - exists "Query". cbn [McpTools.name].
    change (String.eqb "search_documents" "search_documents") with true. cbv iota.
    unfold dict_get at 1. rewrite A. reflexivity.
  - exists "Filename". cbn [McpTools.name].
    change (String.eqb "get_document_info" "search_documents") with false.
    change (String.eqb "get_document_info" "list_documents") with false.
    change (String.eqb "get_document_info" "get_document_info") with true. cbv iota.
    unfold dict_get at 1. rewrite A. reflexivity.
Qed.

(** X14.  The search engine is invoked by one kind of call only:
    [search_documents] with a query that is not empty.  It is then invoked
    exactly once, with the query and the limit of the call (5 when the
    call has none), whatever the outcome; every other call leaves the
    engine alone. *)
Theorem engine_invoked_only_by_accepted_search (db : Table) (name : string)
    (arguments : gmap string pyval) (log : SearchLog) :
  snd (call_tool db name arguments log) =
    if (String.eqb name "search_documents" &&
        truthy (dict_get arguments "query" (VStr EmptyString)))%bool
    then app log [ (dict_get arguments "query" (VStr EmptyString),
                    dict_get arguments "limit" (VInt 5)) ]
    else log.
Proof.
  unfold handle_call_tool.
  destruct (String.eqb name "search_documents"); cbn [andb].
  { destruct (truthy (dict_get arguments "query" (VStr EmptyString))); cbn [negb];
      [|reflexivity].
    unfold try_except, bind, search, lift, ret.
    destruct (vector_store_search _ _) as [[|r rest]|e]; try reflexivity.
    destruct (format_results _ _ _); reflexivity. }
  destruct (String.eqb name "list_documents").
  { unfold try_except, ret. destruct db; reflexivity. }
  destruct (String.eqb name "get_document_info"); [|reflexivity].
  destruct (truthy (dict_get arguments "filename" (VStr EmptyString))); cbn [negb];
    [|reflexivity].
  unfold try_except, bind, lift, ret.
  destruct (List.find _ db) as [d|]; [|reflexivity].
  destruct (PDFDocument.processed d).
  - unfold gt_zero. destruct (PDFDocument.chunks_count d) as [n|]; [|reflexivity].
    destruct (0 <? n), (PDFDocument.processing d); reflexivity.
  - destruct (PDFDocument.processing d); reflexivity.
Qed.

(** X15.  The default the catalogue declares for [limit] is the one the
    handler applies: a search call without a limit reaches the engine with
    the [default] of the [limit] property of the advertised schema. *)
Theorem absent_limit_is_declared_default (db : Table) (tool : McpTools.Tool)
    (default : pyval) (arguments : gmap string pyval) (log : SearchLog) :
  In tool McpTools.handle_list_tools ->
  McpTools.name tool = "search_documents" ->
  McpTools.declared_default (McpTools.inputSchema tool) "limit" = Some default ->
  arguments !! "limit" = None ->
  truthy (dict_get arguments "query" (VStr EmptyString)) = true ->
  snd (call_tool db "search_documents" arguments log) =
    app log [ (dict_get arguments "query" (VStr EmptyString), default) ].
Proof.
  intros T N D A Q. cbn [McpTools.handle_list_tools] in T.
  destruct T as [<- | [<- | [<- | []]]]; try discriminate N.
  vm_compute in D. injection D as <-.
  rewrite accepted_query_invokes_engine by exact Q.
  replace (dict_get arguments "limit" (VInt 5)) with (VInt 5)
    by (unfold dict_get; now rewrite A).
  reflexivity.
Qed.

(** X16.  When the engine returns passages that all carry a [content],
    the answer is one text: the line [Found <n> relevant results for
    query: '<query>'] followed by one block per passage, numbered from 1
    in the order the engine returned them, each with its distance (or
    [N/A] when it has none) and its content. *)
Theorem search_answer_text (db : Table) (arguments : gmap string pyval)
    (log : SearchLog) (results : list (gmap string pyval)) :
  truthy (dict_get arguments "query" (VStr EmptyString)) = true ->
  vector_store_search (dict_get arguments "query" (VStr EmptyString))
    (dict_get arguments "limit" (VInt 5)) = Ok results ->
  results <> [] ->
  Forall (fun r : gmap string pyval => r !! "content" <> None) results ->
  fst (call_tool db "search_documents" arguments log) =
    Ok (text_content
          (found_line (length results) (dict_get arguments "query" (VStr EmptyString)) ++
           blocks 1 results)).
Proof.
  intros Q R N C. unfold handle_call_tool.
  change (String.eqb "search_documents" "search_documents") with true. cbv iota.
  rewrite Q. cbn [negb]. unfold try_except, bind, search, lift, ret. rewrite R.
  destruct results as [|r rest]; [congruence|].
  match goal with |- context [format_results ?i ?l ?p] =>
    destruct (format_results_blocks l i p C) as (parts' & -> & J) end.
  cbn [fst]. rewrite J. reflexivity.
Qed.

(** X17.  When a search yields nothing usable the answer is still one
    text, and nothing of a partial answer is kept: an engine that raises
    gives [Error performing search: <message>]; no passage gives [No
    relevant documents found for your query.]; and a single passage
    without [content] anywhere in the list replaces the whole answer by
    [Error performing search: 'content']. *)
Theorem search_degrades_to_text (db : Table) (arguments : gmap string pyval)
    (log : SearchLog) :
  truthy (dict_get arguments "query" (VStr EmptyString)) = true ->
  let outcome :=
    vector_store_search (dict_get arguments "query" (VStr EmptyString))
      (dict_get arguments "limit" (VInt 5)) in
  let answer := fst (call_tool db "search_documents" arguments log) in
  (forall e, outcome = Raise e ->
     answer = Ok (text_content ("Error performing search: " ++ exn_str e))) /\
  (outcome = Ok [] ->
     answer = Ok (text_content "No relevant documents found for your query.")) /\
  (forall results : list (gmap string pyval),
     outcome = Ok results ->
     Exists (fun r : gmap string pyval => r !! "content" = None) results ->
     answer = Ok (text_content "Error performing search: 'content'")).
Proof.
  intros Q outcome answer. unfold answer, outcome, handle_call_tool.
  change (String.eqb "search_documents" "search_documents") with true. cbv iota.
  rewrite Q. cbn [negb]. unfold try_except, bind, search, lift, ret.
  split; [|split].
  - intros e ->. reflexivity.
  - intros ->. reflexivity.
  - intros results -> X. destruct results as [|r rest]; [inversion X|].
    now rewrite format_results_missing.
Qed.

Lemma entry_in_listing (db : Table) (d : PDFDocument.t) :
  In d db -> exists before after, listing db = before ++ entry d ++ after.
Proof.
  intros I. apply in_split in I as (l1 & l2 & ->).
  exists ("Available documents in the knowledge base:" ++ NL ++ NL ++
          fold_right (fun d rest => entry d ++ rest) EmptyString l1),
         (fold_right (fun d rest => entry d ++ rest) EmptyString l2).
  unfold listing. rewrite !string_app_assoc. do 3 f_equal.
  induction l1 as [|x l1 IH]; [reflexivity|].
  cbn [app fold_right]. now rewrite IH, string_app_assoc.
Qed.

(** X20.  [list_documents] shows every record of the table, whatever its
    status: the entry of each record, with its mark, filename, status,
    upload date and size, is part of the text. *)
Theorem every_record_listed (db : Table) (d : PDFDocument.t)
    (arguments : gmap string pyval) (log : SearchLog) :
  In d db ->
  exists before after,
    call_tool db "list_documents" arguments log =
      (Ok (text_content (before ++ entry d ++ after)), log).
Proof.
  intros I. rewrite list_documents_text by (intros ->; inversion I).
  destruct (entry_in_listing db d I) as (before & after & ->). eauto.
Qed.

(** X22.  Every resource [list_resources] hands out belongs to a record
    that [list_documents] shows as completed: its URL is what the
    validation made of [pdf://] followed by the filename of a processed
    record of the table, its name is that filename, and the entry of that
    record, with the completed mark, is part of the listing. *)
Theorem resources_are_completed_documents
    (validate_url : string -> Res AnyUrl) (db : Table)
    (handles : list Resource) (h : Resource)
    (arguments : gmap string pyval) (log : SearchLog) :
  handle_list_resources validate_url db = Ok handles ->
  In h handles ->
  exists d before after,
    In d db /\
    validate_url ("pdf://" ++ PDFDocument.filename d) = Ok (uri h) /\
    name h = PDFDocument.filename d /\
    derived_status d = Completed /\
    call_tool db "list_documents" arguments log =
      (Ok (text_content (before ++ entry d ++ after)), log).
Proof.
  intros L I. unfold handle_list_resources in L.
  apply append_resources_ok in L as [_ L].
  destruct (L h I) as [[] | (d & Id & V & E)].
  apply filter_In in Id as [Id P].
  destruct (entry_in_listing db d Id) as (before & after & T).
  exists d, before, after. split; [exact Id|]. split; [exact V|].
  split; [rewrite E; reflexivity|].
  split; [unfold derived_status; now rewrite P|].
  rewrite list_documents_text by (intros ->; inversion Id). now rewrite T.
Qed.


(** X18.  [get_document_info] turns every failed lookup into a text and
    leaves the search engine alone: without a filename, or with the empty
    one, the answer is [Error: Filename is required]; with a filename
    that no record of the table carries it is [Document '<filename>' not
    found.]. *)
Theorem document_lookup_failures (db : Table) (arguments : gmap string pyval)
    (log : SearchLog) :
  (arguments !! "filename" = None \/ arguments !! "filename" = Some (VStr EmptyString) ->
   call_tool db "get_document_info" arguments log =
     (Ok (text_content "Error: Filename is required"), log)) /\
  (forall s,
     arguments !! "filename" = Some (VStr s) ->
     s <> EmptyString ->
     (forall d, In d db -> PDFDocument.filename d <> s) ->
     call_tool db "get_document_info" arguments log =
       (Ok (text_content ("Document '" ++ s ++ "' not found.")), log)).
Proof.
  split.
  - intros H. unfold handle_call_tool.
    change (String.eqb "get_document_info" "search_documents") with false.
    change (String.eqb "get_document_info" "list_documents") with false.
    change (String.eqb "get_document_info" "get_document_info") with true.
    cbv iota. unfold dict_get at 1. destruct H as [-> | ->]; reflexivity.
  - intros s A N F. unfold handle_call_tool.
    change (String.eqb "get_document_info" "search_documents") with false.
    change (String.eqb "get_document_info" "list_documents") with false.
    change (String.eqb "get_document_info" "get_document_info") with true.
    cbv iota. unfold dict_get. rewrite A. cbn [truthy].
    apply String.eqb_neq in N. rewrite N. cbn [negb].
    unfold try_except, ret.
    destruct (List.find (filename_is (VStr s)) db) as [d|] eqn:E; [|reflexivity].
    apply find_some in E as [I E]. cbn [filename_is] in E.
    apply String.eqb_eq in E. now apply F in I.
Qed.

End ToolExtras.


(** *** The further properties at work on the scenarios *)

Section MoreWitnesses.
Import Uploader Trace Invariant Spec Scenario Scenario2 McpServer SearchText.

Lemma validation_failure_touches_nothing_witness :
  fs library_world !! "/home/u/missing.pdf" = None /\
  exists w' line,
    upload_and_process_pdf uploads clock idle_engine
      "/home/u/missing.pdf" "y" library_world = (Ok false, w') /\
    db w' = db library_world /\ fs w' = fs library_world /\
    commits w' = commits library_world /\
    out w' = app (out library_world) [line].
Proof.
  assert (X : fs library_world !! "/home/u/missing.pdf" = None)
    by (vm_compute; reflexivity).
  split; [exact X|].
  destruct (validation_failure_touches_nothing uploads clock idle_engine
              "/home/u/missing.pdf" "y" library_world (or_introl X))
    as (w' & line & R & D & Fs & C & O & _).
  exists w', line. auto.
Defined.

Lemma fresh_upload_ignores_answer_witness :
  List.find (fun d => String.eqb (PDFDocument.filename d) (basename "/home/u/bad.pdf"))
    (db fresh_world) = None /\
  upload_and_process_pdf uploads clock idle_engine "/home/u/bad.pdf" "y" fresh_world =
  upload_and_process_pdf uploads clock idle_engine "/home/u/bad.pdf" "no" fresh_world.
Proof.
  split; [reflexivity|].
  apply (fresh_upload_ignores_answer uploads clock idle_engine
           "/home/u/bad.pdf" "y" "no" fresh_world).
  reflexivity.
Defined.

Lemma first_upload_witness :
  fs fresh_world !! "/home/u/bad.pdf" = Some "%PDF-1.4 bad" /\
  endswith (lower "/home/u/bad.pdf") ".pdf" = true /\
  "/home/u/bad.pdf" <> path_join uploads (basename "/home/u/bad.pdf") /\
  db (staged uploads clock "/home/u/bad.pdf" "%PDF-1.4 bad" None fresh_world) =
    app (db fresh_world)
      [ new_row clock (basename "/home/u/bad.pdf")
          (path_join uploads (basename "/home/u/bad.pdf"))
          (Z.of_nat (String.length "%PDF-1.4 bad")) (db fresh_world) ].
Proof.
  assert (X : fs fresh_world !! "/home/u/bad.pdf" = Some "%PDF-1.4 bad")
    by (vm_compute; reflexivity).
  assert (E : endswith (lower "/home/u/bad.pdf") ".pdf" = true)
    by (vm_compute; reflexivity).
  assert (S : "/home/u/bad.pdf" <> path_join uploads (basename "/home/u/bad.pdf"))
    by (apply String.eqb_neq; vm_compute; reflexivity).
  repeat (split; [assumption|]).
  exact (proj1 (proj2
    (first_upload uploads clock idle_engine "/home/u/bad.pdf" EmptyString
       "%PDF-1.4 bad" fresh_world X E eq_refl S))).
Defined.

Lemma managed_copy_upload_fails_witness :
  fs library_world !! "/srv/app/backend/uploads/notes.pdf" = Some "%PDF-1.4 n" /\
  endswith (lower "/srv/app/backend/uploads/notes.pdf") ".pdf" = true /\
  "/srv/app/backend/uploads/notes.pdf" =
    path_join uploads (basename "/srv/app/backend/uploads/notes.pdf") /\
  exists w', same_file_run = (Ok false, w') /\ fs w' = fs library_world.
Proof.
  assert (X : fs library_world !! "/srv/app/backend/uploads/notes.pdf"
              = Some "%PDF-1.4 n") by (vm_compute; reflexivity).
  assert (E : endswith (lower "/srv/app/backend/uploads/notes.pdf") ".pdf" = true)
    by (vm_compute; reflexivity).
  assert (S : "/srv/app/backend/uploads/notes.pdf" =
              path_join uploads (basename "/srv/app/backend/uploads/notes.pdf"))
    by (vm_compute; reflexivity).
  repeat (split; [assumption|]).
  destruct (managed_copy_upload_fails uploads clock idle_engine
              "/srv/app/backend/uploads/notes.pdf" "Y" "%PDF-1.4 n" library_world
              X E eq_refl S) as (w' & R & Fs & _).
  exists w'. auto.
Defined.

Lemma upload_writes_one_path_witness :
  (forall pdf_id path filename w0,
     fs (snd (idle_engine pdf_id path filename w0)) !! "/data/inbox/report.pdf"
       = fs w0 !! "/data/inbox/report.pdf") /\
  "/data/inbox/report.pdf" <> path_join uploads (basename "/home/u/report.pdf") /\
  fs (snd replace_run) !! "/data/inbox/report.pdf" =
    fs library_world !! "/data/inbox/report.pdf".
Proof.
  assert (K : forall pdf_id path filename w0,
            fs (snd (idle_engine pdf_id path filename w0)) !! "/data/inbox/report.pdf"
              = fs w0 !! "/data/inbox/report.pdf") by reflexivity.
  assert (Q : "/data/inbox/report.pdf" <>
              path_join uploads (basename "/home/u/report.pdf"))
    by (apply String.eqb_neq; vm_compute; reflexivity).
  repeat (split; [assumption|]).
  exact (upload_writes_one_path uploads clock idle_engine
           "/home/u/report.pdf" "y" library_world "/data/inbox/report.pdf" K Q).
Defined.

Lemma stored_directly_in_uploads_dir_witness :
  endswith (lower "/home/u/Q3/Report.PDF") ".pdf" = true /\
  has_sep (basename "/home/u/Q3/Report.PDF") = false /\
  basename "/home/u/Q3/Report.PDF" <> EmptyString.
Proof.
  assert (E : endswith (lower "/home/u/Q3/Report.PDF") ".pdf" = true)
    by (vm_compute; reflexivity).
  split; [exact E|].
  destruct (stored_directly_in_uploads_dir uploads "/home/u/Q3/Report.PDF" E)
    as (N & _ & Z & _).
  auto.
Defined.

Lemma main_usage_witness :
  length ["upload_pdf.py"] <> 2%nat /\
  exists w',
    UploaderCli.main uploads clock idle_engine ["upload_pdf.py"] EmptyString library_world
      = (1, w') /\
    db w' = db library_world /\ fs w' = fs library_world.
Proof.
  assert (L : length ["upload_pdf.py"] <> 2%nat) by (cbn; lia).
  split; [exact L|].
  destruct (main_usage uploads clock idle_engine ["upload_pdf.py"] EmptyString
              library_world L) as (w' & R & D & Fs & _).
  exists w'. auto.
Defined.

Lemma required_arguments_enforced_witness :
  In (nth 2 McpTools.handle_list_tools (McpTools.mkTool EmptyString EmptyString
                                          (McpTools.JObject [])))
     McpTools.handle_list_tools /\
  (∅ : gmap string pyval) !! "filename" = None /\
  exists what,
    handle_call_tool broken_search [report_row] "get_document_info" ∅ [] =
      (Ok (text_content ("Error: " ++ what ++ " is required")), []).
Proof.
  assert (T : In (nth 2 McpTools.handle_list_tools
                    (McpTools.mkTool EmptyString EmptyString (McpTools.JObject [])))
                 McpTools.handle_list_tools)
    by (right; right; left; reflexivity).
  split; [exact T|]. split; [reflexivity|].
  exact (required_arguments_enforced broken_search [report_row] _ "filename" ∅ []
           T (or_introl eq_refl) eq_refl).
Defined.

Lemma absent_limit_is_declared_default_witness :
  revenue_query !! "limit" = None /\
  truthy (dict_get revenue_query "query" (VStr EmptyString)) = true /\
  snd (handle_call_tool two_passages [] "search_documents" revenue_query []) =
    [ (VStr "revenue", VInt 5) ].
Proof.
  assert (A : revenue_query !! "limit" = None) by (vm_compute; reflexivity).
  assert (Q : truthy (dict_get revenue_query "query" (VStr EmptyString)) = true)
    by (vm_compute; reflexivity).
  repeat (split; [assumption|]).
  exact (absent_limit_is_declared_default two_passages []
           (nth 0 McpTools.handle_list_tools
              (McpTools.mkTool EmptyString EmptyString (McpTools.JObject [])))
           (VInt 5) revenue_query [] (or_introl eq_refl) eq_refl eq_refl A Q).
Defined.

Lemma search_answer_text_witness :
  truthy (dict_get revenue_query "query" (VStr EmptyString)) = true /\
  fst (handle_call_tool two_passages [] "search_documents" revenue_query []) =
    Ok (text_content
          ("Found 2 relevant results for query: 'revenue'" ++ NL ++
           NL ++ "--- Result 1 ---" ++ NL ++
           "Relevance Score: 0.12" ++ NL ++
           "Content:" ++ NL ++ "Quarterly revenue grew." ++ NL ++
           NL ++ "--- Result 2 ---" ++ NL ++
           "Relevance Score: N/A" ++ NL ++
           "Content:" ++ NL ++ "Costs were flat." ++ NL)).
Proof.
  assert (Q : truthy (dict_get revenue_query "query" (VStr EmptyString)) = true)
    by (vm_compute; reflexivity).
  split; [exact Q|].
  rewrite (search_answer_text two_passages [] revenue_query []
             [ {[ "content" := VStr "Quarterly revenue grew.";
                  "distance" := VOther true "0.12" ]};
               {[ "content" := VStr "Costs were flat." ]} ] Q eq_refl).
  - vm_compute. reflexivity.
  - discriminate.
  - repeat constructor; vm_compute; discriminate.
Defined.

Lemma search_degrades_to_text_witness :
  truthy (dict_get revenue_query "query" (VStr EmptyString)) = true /\
  fst (handle_call_tool one_bad_passage [] "search_documents" revenue_query []) =
    Ok (text_content "Error performing search: 'content'").
Proof.
  assert (Q : truthy (dict_get revenue_query "query" (VStr EmptyString)) = true)
    by (vm_compute; reflexivity).
  split; [exact Q|].
  apply (proj2 (proj2 (search_degrades_to_text one_bad_passage [] revenue_query [] Q))
           [ {[ "content" := VStr "Quarterly revenue grew." ]};
             {[ "distance" := VOther true "0.40" ]} ] eq_refl).
  apply Exists_cons_tl. apply Exists_cons_hd. vm_compute. reflexivity.
Defined.

Lemma every_record_listed_witness :
  In notes_row (db library_world) /\
  exists before after,
    handle_call_tool no_passages (db library_world) "list_documents" ∅ [] =
      (Ok (text_content (before ++ entry notes_row ++ after)), []).
Proof.
  assert (I : In notes_row (db library_world)) by (right; left; reflexivity).
  split; [exact I|].
  exact (every_record_listed no_passages (db library_world) notes_row ∅ [] I).
Defined.


Lemma resources_are_completed_documents_witness :
  handle_list_resources plain_url (db library_world) =
    Ok [ handle (mkAnyUrl "pdf://report.pdf") report_row ] /\
  exists d before after,
    In d (db library_world) /\
    plain_url ("pdf://" ++ PDFDocument.filename d) = Ok (mkAnyUrl "pdf://report.pdf") /\
    derived_status d = Completed /\
    handle_call_tool no_passages (db library_world) "list_documents" ∅ [] =
      (Ok (text_content (before ++ entry d ++ after)), []).
Proof.
  assert (L : handle_list_resources plain_url (db library_world) =
              Ok [ handle (mkAnyUrl "pdf://report.pdf") report_row ])
    by reflexivity.
  split; [exact L|].
  destruct (resources_are_completed_documents no_passages plain_url (db library_world)
              _ (handle (mkAnyUrl "pdf://report.pdf") report_row) ∅ [] L
              (or_introl eq_refl))
    as (d & before & after & I & V & _ & S & T).
  exists d, before, after. auto.
Defined.

Lemma upload_keeps_other_records_witness :
  In notes_row (db library_world) /\
  In notes_row (db (snd replace_run)).
Proof.
  assert (I : In notes_row (db library_world)) by (right; left; reflexivity).
  split; [exact I|].
  apply (upload_keeps_other_records uploads clock idle_engine
           "/home/u/report.pdf" "y" library_world notes_row).
  - intros pdf_id path filename w0 H. exact H.
  - exact I.
  - intros doc F. vm_compute in F. injection F as <-. discriminate.
Defined.

End MoreWitnesses.

(** *** Where the code parts from the specification *)

Section Divergences.
Import Uploader Trace Invariant Spec Scenario Scenario2 McpServer.

Lemma resources_break_on_urls_witness :
  In spaced_row [report_row; spaced_row] /\
  PDFDocument.processed spaced_row = true /\
  plain_url ("pdf://" ++ PDFDocument.filename spaced_row) =
    Raise (mkExn "ValidationError"
             "Input should be a valid URL: pdf://My Report.pdf") /\
  (exists e', handle_list_resources plain_url [report_row; spaced_row] = Raise e') /\
  (exists e',
     handle_read_resource [report_row; spaced_row]
       (GivenUrl (mkAnyUrl "pdf://report.pdf")) = Raise e' /\
     exn_class e' = "AttributeError").
Proof.
  assert (I : In spaced_row [report_row; spaced_row]) by (right; left; reflexivity).
  assert (V : plain_url ("pdf://" ++ PDFDocument.filename spaced_row) =
              Raise (mkExn "ValidationError"
                       "Input should be a valid URL: pdf://My Report.pdf"))
    by reflexivity.
  destruct (resources_break_on_urls plain_url [report_row; spaced_row] spaced_row _
              I eq_refl V) as [L R].
  repeat (split; [assumption || reflexivity|]).
  exact (R (mkAnyUrl "pdf://report.pdf")).
Defined.


(** C8 as stated fails.  The check and the creation are not one unit: in
    the confirmed replacement of [report.pdf] the deletion is committed on
    its own, and the first snapshot the run commits is a table in which
    that name has no record at all, the old one deleted and the new one
    not yet created. *)
Lemma deletion_observable_before_creation :
  (exists d, In d (db library_world) /\ PDFDocument.filename d = "report.pdf") /\
  confirms "y" = true /\
  fst replace_run = Ok true /\
  commits (snd replace_run) =
    [ [notes_row];
      [notes_row;
       PDFDocument.mk 3 "report.pdf" "/srv/app/backend/uploads/report.pdf" 19 clock
         None None true false] ] /\
  ~ (forall t, In t (commits (snd replace_run)) ->
       exists d, In d t /\ PDFDocument.filename d = "report.pdf").
Proof.
  split; [exists report_row; split; [left|]; reflexivity|].
  split; [reflexivity|].
  split; [vm_compute; reflexivity|].
  assert (C : commits (snd replace_run) =
    [ [notes_row];
      [notes_row;
       PDFDocument.mk 3 "report.pdf" "/srv/app/backend/uploads/report.pdf" 19 clock
         None None true false] ]) by (vm_compute; reflexivity).
  split; [exact C|].
  intros H. destruct (H [notes_row]) as (d & I & E).
  - rewrite C. left. reflexivity.
  - destruct I as [<- | []]. discriminate E.
Qed.

Lemma upload_true_only_through_engine_witness :
  fst replace_run = Ok true /\
  exists content w4,
    fs library_world !! "/home/u/report.pdf" = Some content /\
    db (snd replace_run) = db w4 /\
    fs (snd replace_run) = fs w4.
Proof.
  assert (T : fst replace_run = Ok true) by (vm_compute; reflexivity).
  split; [exact T|].
  destruct (upload_true_only_through_engine uploads clock idle_engine
              "/home/u/report.pdf" "y" library_world T)
    as (content & w4 & X & _ & _ & _ & _ & D & Fs & _).
  exists content, w4. auto.
Defined.

Lemma extension_check_ignores_case_witness :
  fs caps_world !! "/home/u/SCAN.PDF" = Some "%PDF-1.4 scan" /\
  upload_and_process_pdf uploads clock idle_engine "/home/u/SCAN.PDF" EmptyString
    caps_world <>
    (Ok false, say ("❌ Error: File must be a PDF: " ++ "/home/u/SCAN.PDF") caps_world).
Proof.
  assert (X : fs caps_world !! "/home/u/SCAN.PDF" = Some "%PDF-1.4 scan")
    by (vm_compute; reflexivity).
  split; [exact X|].
  intros H.
  apply (proj1 (extension_check_ignores_case uploads clock idle_engine
                  "/home/u/SCAN.PDF" EmptyString "%PDF-1.4 scan" caps_world X)) in H.
  apply H. exists "/home/u/SCAN", "P"%char, "D"%char, "F"%char.
  split; [reflexivity|]. auto.
Defined.

End Divergences.
